(** * Twitter advanced-search capability: a shallow embedding of its handler

    The repository registers one capability, [advancedTweetSearch], whose
    [run] method issues one [axios.get] against the provider and renders the
    JSON body as text.  Two versions of the handler are in the sources:

    - the paginated handler (the source file with the [cursor] argument),
      embedded in [Module Paginated];
    - the basic handler of [src/index.ts] ("We are omitting the 'cursor' for
      pagination in this basic version"), embedded in [Module Basic].

    [Module JS] carries the fragment of JavaScript the handlers rely on:
    JSON values, truthiness, [ToString] as performed by template literals,
    property reads, [String.prototype.substring], and abrupt completions
    ([throw]) with [try]/[catch].  [Module Node] carries the formatting that
    [console.error] applies to its arguments.  A call to [console] is part
    of the embedding where it can throw: the [console.error] of the shape
    check, whose format string holds the caller's query and whose arguments
    come from the provider.  The other calls cannot: those with one
    argument print it without formatting, and the one of the [catch]
    clause formats the [Error] object, whose conversions return. *)

From Stdlib Require Import String Ascii List ZArith Bool Arith Lia DecimalString.
Import ListNotations.
Open Scope string_scope.
Set Warnings "-abstract-large-number".

(* ================================================================= *)
(** ** The JavaScript fragment *)

Module JS.

(** A value obtained from [JSON.parse] (what axios stores in
    [response.data]), extended with [undefined], the result of reading a
    property that is not there.  A JavaScript string is a sequence of UTF-16
    code units; a character of a Rocq [string] stands for one code unit, so
    that [length] is [.length] and [substring] is [.substring].  Numbers are
    the safe integers (of magnitude below 2^53), which [JSON.parse] reads
    exactly and [ToString] prints in plain decimal: status codes and
    engagement counts are such integers, and no handler does arithmetic on
    them.  A larger or fractional JSON number is outside the embedding. *)
#[warnings="-register-all"]
Inductive value : Type :=
| JSUndefined
| JSNull
| JSBool (b : bool)
| JSNumber (n : Z)
| JSString (s : string)
| JSArray (elements : list value)
| JSObject (fields : list (string * value)).

(** The configuration object of [axios.get(url, { params, headers })]. *)
Record AxiosRequest : Type := mkRequest {
  url : string;
  params : list (string * value);
  headers : list (string * string)
}.

(** [response] of axios: the HTTP status and the parsed body. *)
Record AxiosResponse : Type := mkResponse { status : Z; data : value }.

(** What a [catch (error)] clause of the handlers can receive.
    [axios.isAxiosError] holds of the first constructor only.  axios rejects
    with an [AxiosError] carrying [response] when the provider answered with
    a status outside 2xx, and with an [AxiosError] without [response] when
    no answer arrived (DNS, refused or reset connection, timeout).  Every
    other exception is an ordinary [Error] of the runtime, with its
    [message]. *)
Inductive exn : Type :=
| AxiosError (message : string) (response : option AxiosResponse)
| TypeError (message : string).

Definition isAxiosError (e : exn) : bool :=
  match e with AxiosError _ _ => true | TypeError _ => false end.

Definition error_message (e : exn) : string :=
  match e with AxiosError m _ => m | TypeError m => m end.

Definition error_response (e : exn) : option AxiosResponse :=
  match e with AxiosError _ r => r | TypeError _ => None end.

(** Completion of an expression or statement list: a value, or a [throw]. *)
Inductive completion (A : Type) : Type :=
| Normal (a : A)
| Throw (e : exn).
Arguments Normal {A} a.
Arguments Throw {A} e.

Definition bind {A B : Type} (c : completion A) (k : A -> completion B) : completion B :=
  match c with
  | Normal a => k a
  | Throw e => Throw e
  end.

(** [try { body } catch (error) { handler }] *)
Definition try_catch {A : Type} (body : completion A) (handler : exn -> completion A) : completion A :=
  match body with
  | Normal a => Normal a
  | Throw e => handler e
  end.

Notation "x <- c ;; k" := (bind c (fun x => k))
  (at level 61, c at next level, right associativity).

(** The two characters a Rocq string literal cannot hold directly. *)
Definition LF : string := String (ascii_of_nat 10) EmptyString.
Definition DQ : string := String (ascii_of_nat 34) EmptyString.

(** [ToBoolean]: the falsy values are [undefined], [null], [false], [0] and
    the empty string. *)
Definition ToBoolean (v : value) : bool :=
  match v with
  | JSUndefined | JSNull => false
  | JSBool b => b
  | JSNumber n => negb (n =? 0)%Z
  | JSString s => negb (s =? "")
  | JSArray _ | JSObject _ => true
  end.

(** [a || b] on values. *)
Definition or_else (a b : value) : value := if ToBoolean a then a else b.

Fixpoint lookup (k : string) (fields : list (string * value)) : value :=
  match fields with
  | [] => JSUndefined
  | (k', v) :: rest => if k =? k' then v else lookup k rest
  end.

Fixpoint has_own (k : string) (fields : list (string * value)) : bool :=
  match fields with
  | [] => false
  | (k', _) :: rest => (k =? k') || has_own k rest
  end.

(** [v.k] for the property names the handlers read ([tweets], [message],
    [msg], [has_next_page], [next_cursor], [author], [userName], [text],
    [id], [createdAt], [url] and the four counts): none of them is defined
    on a built-in prototype, so the read finds an own property of an object
    or yields [undefined]; on [undefined] and [null] it throws. *)
Definition Get (v : value) (k : string) : completion value :=
  match v with
  | JSUndefined =>
      Throw (TypeError ("Cannot read properties of undefined (reading '" ++ k ++ "')"))
  | JSNull =>
      Throw (TypeError ("Cannot read properties of null (reading '" ++ k ++ "')"))
  | JSObject fields => Normal (lookup k fields)
  | _ => Normal JSUndefined
  end.

(** [v?.k] *)
Definition OptGet (v : value) (k : string) : value :=
  match v with
  | JSObject fields => lookup k fields
  | _ => JSUndefined
  end.

Definition isArray (v : value) : bool :=
  match v with JSArray _ => true | _ => false end.

Definition string_of_Z (n : Z) : string := NilZero.string_of_int (Z.to_int n).
Definition string_of_nat (n : nat) : string := NilZero.string_of_uint (Nat.to_uint n).

Definition cannot_convert : exn := TypeError "Cannot convert object to primitive value".

(** [ToString], as a template literal applies it to an interpolated value.
    An array is joined with commas, [undefined] and [null] elements giving
    the empty string.  An object parsed from JSON inherits
    [Object.prototype.toString] and prints as [[object Object]], unless the
    JSON gave it an own property named [toString]: that property is not
    callable, [valueOf] (own, hence not callable, or inherited, returning
    the object itself) yields no primitive either, and the conversion throws
    a [TypeError]. *)
Fixpoint ToString (v : value) : completion string :=
  match v with
  | JSUndefined => Normal "undefined"
  | JSNull => Normal "null"
  | JSBool true => Normal "true"
  | JSBool false => Normal "false"
  | JSNumber n => Normal (string_of_Z n)
  | JSString s => Normal s
  | JSArray elements =>
      (fix join (l : list value) : completion string :=
         match l with
         | [] => Normal ""
         | x :: rest =>
             s <- match x with
                  | JSUndefined | JSNull => Normal ""
                  | _ => ToString x
                  end ;;
             match rest with
             | [] => Normal s
             | _ :: _ => r <- join rest ;; Normal (s ++ "," ++ r)
             end
         end) elements
  | JSObject fields =>
      if has_own "toString" fields then Throw cannot_convert
      else Normal "[object Object]"
  end.

(** [v === n] for a number literal [n]. *)
Definition strict_eq_number (v : value) (n : Z) : bool :=
  match v with JSNumber m => (m =? n)%Z | _ => false end.

(** [s.substring(0, n)] *)
Definition substring0 (n : nat) (s : string) : string := substring 0 n s.

(** An optional string argument: [None] is [undefined]. *)
Definition of_optional (c : option string) : value :=
  match c with Some s => JSString s | None => JSUndefined end.

(** The string an optional argument holds when it is truthy: [c ? f(c) : g]
    is [match truthy c with Some s => f s | None => g end]. *)
Definition truthy (c : option string) : option string :=
  match c with
  | Some s => if ToBoolean (JSString s) then Some s else None
  | None => None
  end.

End JS.
Import JS.

(* ================================================================= *)
(** ** The formatting of [console.error] *)

Module Node.

(** The characters [util.format] takes for a placeholder after a percent
    sign: [%s %j %d %O %o %i %f %c]. *)
Definition is_placeholder (c : ascii) : bool :=
  match c with
  | "s" | "j" | "d" | "O" | "o" | "i" | "f" | "c" => true
  | _ => false
  end%char.

(** [%d], [%i] and [%f] apply [Number], [parseInt] and [parseFloat] to
    their argument. *)
Definition is_numeric (c : ascii) : bool :=
  match c with
  | "d" | "i" | "f" => true
  | _ => false
  end%char.

(** [util.format(first, ...args)] for a string [first], as far as it can
    throw.  The format string is scanned for a percent sign followed by
    another character, both of which are passed over (a percent sign that
    ends the string is not looked at); while an argument is left, a
    placeholder consumes the next one, and once none is left nothing more
    is converted.  A numeric placeholder converts its argument to a
    primitive, which throws for the values for which [ToString] throws (an
    own [toString] key, which JSON cannot make callable, leaves an object
    without a primitive under either hint); [%s], [%j], [%o], [%O] inspect
    or serialise an object and [%c] ignores its argument.  Arguments left
    over are inspected. *)
Fixpoint format (first : string) (args : list value) {struct first} : completion unit :=
  match first with
  | String c tail =>
      if (c =? "%")%char
      then
        match tail with
        | String next rest =>
            match args with
            | [] => Normal tt
            | arg :: args' =>
                if is_placeholder next
                then
                  if is_numeric next
                  then _ <- ToString arg ;; format rest args'
                  else format rest args'
                else format rest args
            end
        | EmptyString => Normal tt
        end
      else format tail args
  | EmptyString => Normal tt
  end.

(** [console.error(first, ...args)]: the formatted line goes to the
    standard error stream. *)
Definition console_error (first : string) (args : list value) : completion unit :=
  format first args.

End Node.
Import Node.

(* ================================================================= *)
(** ** What the two handlers share *)

(** [z.enum(['Latest', 'Top'])] *)
Inductive QueryType : Type := Latest | Top.

Definition QueryType_toString (t : QueryType) : string :=
  match t with Latest => "Latest" | Top => "Top" end.

Definition twitterApiBaseUrl : string := "https://api.twitterapi.io".
Definition apiUrl : string := twitterApiBaseUrl ++ "/twitter/tweet/advanced_search".

Definition maxTotalOutputLength : nat := 25000.

Definition truncation_notice : string :=
  LF ++ "... [Total output truncated due to length limit]".

(** [if (output.length > maxTotalOutputLength) output =
      output.substring(0, maxTotalOutputLength) + "\n... [Total output truncated due to length limit]"] *)
Definition cap_output (output : string) : string :=
  if (maxTotalOutputLength <? String.length output)%nat
  then substring0 maxTotalOutputLength output ++ truncation_notice
  else output.

(** [const tweetTextContent = tweet.text || '';
     const tweetText = tweetTextContent.substring(0, 250)
                       + (tweetTextContent.length > 250 ? '...' : '')]
    Only a string has a callable [substring]; [callee] is the expression the
    runtime names in the [TypeError] otherwise, as it prints it (a string
    literal between double quotes). *)
Definition truncate_text (callee : string) (tweetTextContent : value) : completion string :=
  match tweetTextContent with
  | JSString s => Normal (substring0 250 s ++ (if (250 <? String.length s)%nat then "..." else ""))
  | _ => Throw (TypeError (callee ++ ".substring is not a function"))
  end.

(** The callback of [tweetsArray.forEach((tweet, index) => { ... })], the
    same statements in both files; it returns the new value of [output]. *)
Definition forEach_callback (callee : string)
    (tweet : value) (index : nat) (output : string) : completion string :=
  author <- Get tweet "author" ;;
  let authorUsername := or_else (OptGet author "userName") (JSString "Unknown User") in
  text <- Get tweet "text" ;;
  tweetText <- truncate_text callee (or_else text (JSString "")) ;;
  authorUsername <- ToString authorUsername ;;
  let output := output ++ (string_of_nat (index + 1) ++ ". **Author:** @" ++ authorUsername ++ LF) in
  id <- Get tweet "id" ;;
  id <- ToString id ;;
  let output := output ++ ("   **ID:** " ++ id ++ LF) in
  let output := output ++ ("   **Text:** " ++ tweetText ++ LF) in
  createdAt <- Get tweet "createdAt" ;;
  createdAt <- ToString createdAt ;;
  let output := output ++ ("   **Created:** " ++ createdAt ++ LF) in
  url <- Get tweet "url" ;;
  url <- ToString url ;;
  let output := output ++ ("   **Link:** " ++ url ++ LF) in
  likeCount <- Get tweet "likeCount" ;;
  likes <- ToString (or_else likeCount (JSNumber 0)) ;;
  retweetCount <- Get tweet "retweetCount" ;;
  retweets <- ToString (or_else retweetCount (JSNumber 0)) ;;
  replyCount <- Get tweet "replyCount" ;;
  replies <- ToString (or_else replyCount (JSNumber 0)) ;;
  viewCount <- Get tweet "viewCount" ;;
  views <- ToString (or_else viewCount (JSNumber 0)) ;;
  Normal (output ++ ("   **Stats:** Likes: " ++ likes ++ ", Retweets: " ++ retweets
                     ++ ", Replies: " ++ replies ++ ", Views: " ++ views ++ LF ++ LF)).

(** [tweetsArray.forEach(callback)], threading [output]. *)
Fixpoint forEach (callee : string) (tweetsArray : list value) (index : nat)
    (output : string) : completion string :=
  match tweetsArray with
  | [] => Normal output
  | tweet :: rest =>
      output <- forEach_callback callee tweet index output ;;
      forEach callee rest (S index) output
  end.

(** [error.response?.status] and [error.response?.data] *)
Definition response_status (error : exn) : value :=
  match error_response error with
  | Some r => JSNumber (status r)
  | None => JSUndefined
  end.

Definition response_data (error : exn) : value :=
  match error_response error with
  | Some r => data r
  | None => JSUndefined
  end.

(** [error.response?.data?.msg || error.response?.data?.message
     || 'No specific message from API.'] *)
Definition apiMessage (error : exn) : value :=
  or_else (or_else (OptGet (response_data error) "msg")
                   (OptGet (response_data error) "message"))
          (JSString "No specific message from API.").

(** [responseData?.message || responseData?.msg
     || 'Unknown API error or invalid data structure (missing tweets array).'] *)
Definition errorMessage (responseData : value) : value :=
  or_else (or_else (OptGet responseData "message") (OptGet responseData "msg"))
          (JSString "Unknown API error or invalid data structure (missing tweets array).").

(** [!responseData || !Array.isArray(responseData.tweets)] *)
Definition bad_shape (responseData : value) : completion bool :=
  if negb (ToBoolean responseData) then Normal true
  else tweets <- Get responseData "tweets" ;; Normal (negb (isArray tweets)).

(* ================================================================= *)
(** ** The paginated handler *)

Module Paginated.

Record Args : Type := mkArgs {
  query : string;
  queryType : QueryType;
  cursor : option string
}.

Section Handler.

(** [process.env.TWITTER_API_IO_KEY], and the network behind [axios.get]. *)
Variable twitterApiKey : string.
Variable axios_get : AxiosRequest -> completion AxiosResponse.

(** The arguments of [axios.get]; [cursor: cursor || ''] *)
Definition request (args : Args) : AxiosRequest :=
  {| url := apiUrl;
     params := [ ("query", JSString (query args));
                 ("queryType", JSString (QueryType_toString (queryType args)));
                 ("cursor", or_else (of_optional (cursor args)) (JSString "")) ];
     headers := [ ("X-API-Key", twitterApiKey); ("Accept", "application/json") ] |}.

(** The branch [tweetsArray.length === 0] *)
Definition empty_page (args : Args) (hasNextPage nextCursor : value) : completion string :=
  let message :=
    match truthy (cursor args) with
    | Some _ => "No more tweets found on this page for the query: " ++ DQ ++ query args ++ DQ ++ "."
    | None => "No tweets found matching the search query: " ++ DQ ++ query args ++ DQ ++ "."
    end in
  let output := message in
  if ToBoolean hasNextPage && ToBoolean nextCursor
  then
    nextCursor <- ToString nextCursor ;;
    Normal (output ++ (LF ++ "*Note: The API indicates more results might exist. Use this cursor for the next page: "
                       ++ nextCursor ++ "*"))
  else Normal (output ++ (LF ++ "*Note: End of results.*")).

(** The header: [output] is initialised, then overwritten in both branches
    of [if (cursor)]. *)
Definition header (args : Args) : string :=
  let output := "**Search Results for Query " ++ DQ ++ query args ++ DQ ++ " (Type: "
                ++ QueryType_toString (queryType args) ++ "):**" ++ LF ++ LF in
  match truthy (cursor args) with
  | Some cursor =>
      "**Search Results for Query " ++ DQ ++ query args ++ DQ ++ " (Type: "
      ++ QueryType_toString (queryType args) ++ ") - Page corresponding to cursor "
      ++ DQ ++ substring0 10 cursor ++ "..." ++ DQ ++ ":**" ++ LF ++ LF
  | None =>
      "**Search Results for Query " ++ DQ ++ query args ++ DQ ++ " (Type: "
      ++ QueryType_toString (queryType args) ++ ") - First Page:**" ++ LF ++ LF
  end.

(** "Add pagination information to the output" *)
Definition add_pagination (hasNextPage nextCursor : value) (output : string) : completion string :=
  if ToBoolean hasNextPage && ToBoolean nextCursor
  then
    nextCursor <- ToString nextCursor ;;
    Normal (output ++ (LF ++ "*Note: More results available. Use this cursor for the next page: "
                       ++ nextCursor ++ "*" ++ LF))
  else Normal (output ++ (LF ++ "*Note: End of results.*" ++ LF)).

(** "Format the Output": header, one block per tweet, pagination note; the
    report, before the length safeguard. *)
Definition format_output (args : Args) (tweetsArray : list value)
    (hasNextPage nextCursor : value) : completion string :=
  output <- forEach "tweetTextContent" tweetsArray 0 (header args) ;;
  add_pagination hasNextPage nextCursor output.

(** The body of [try]. *)
Definition try_block (args : Args) : completion string :=
  response <- axios_get (request args) ;;
  let responseData := data response in
  bad <- bad_shape responseData ;;
  if bad
  then
    let errorMessage := errorMessage responseData in
    _ <- console_error ("API returned unexpected data structure for query "
                        ++ DQ ++ query args ++ DQ ++ ":")
                       [errorMessage; responseData] ;;
    errorMessage <- ToString errorMessage ;;
    Normal ("Error: Failed to fetch tweets. API Response: " ++ errorMessage)
  else
    tweets <- Get responseData "tweets" ;;
    hasNextPage <- Get responseData "has_next_page" ;;
    nextCursor <- Get responseData "next_cursor" ;;
    match tweets with
    | JSArray [] => empty_page args hasNextPage nextCursor
    | JSArray tweetsArray =>
        output <- format_output args tweetsArray hasNextPage nextCursor ;;
        Normal (cap_output output)
    | _ => (* not reached: the shape check has seen an array *)
        Throw (TypeError "Cannot read properties of undefined (reading 'length')")
    end.

(** The body of [catch (error)]. *)
Definition catch_block (args : Args) (error : exn) : completion string :=
  if isAxiosError error
  then
    let status := response_status error in
    let apiMessage := apiMessage error in
    if strict_eq_number status 401 || strict_eq_number status 403
    then
      status <- ToString status ;;
      Normal ("Error: Authentication failed. Please check if the TWITTER_API_IO_KEY is correct and valid. (Status: "
              ++ status ++ ")")
    else if strict_eq_number status 400
    then
      let potentialReason :=
        match truthy (cursor args) with
        | Some _ => "The search query " ++ DQ ++ query args ++ DQ ++ " or the provided cursor might be invalid."
        | None => "The search query " ++ DQ ++ query args ++ DQ ++ " might be invalid or improperly formatted."
        end in
      apiMessage <- ToString apiMessage ;;
      Normal ("Error: Bad request. " ++ potentialReason
              ++ " Please check the query syntax and cursor value. (Status: 400, Message: "
              ++ apiMessage ++ ")")
    else if strict_eq_number status 404
    then Normal "Error: API endpoint not found or unavailable. Please check the API configuration. (Status: 404)"
    else if strict_eq_number status 429
    then
      status <- ToString status ;;
      Normal ("Error: API rate limit exceeded. Please wait and try again later. (Status: " ++ status ++ ")")
    else
      status <- ToString (or_else status (JSString "N/A")) ;;
      apiMessage <- ToString apiMessage ;;
      Normal ("Error: An API error occurred. Status: " ++ status ++ ", Message: " ++ apiMessage)
  else
    Normal ("Error: An unexpected error occurred while searching tweets: " ++ error_message error).

(** [async run({ args })]: [Normal s] is the promise fulfilled with [s],
    [Throw e] the promise rejected with [e], which reaches the framework. *)
Definition run (args : Args) : completion string :=
  try_catch (try_block args) (catch_block args).

End Handler.

End Paginated.

(* ================================================================= *)
(** ** The basic handler of [src/index.ts] *)

Module Basic.

(** The schema has no [cursor]. *)
Record Args : Type := mkArgs {
  query : string;
  queryType : QueryType
}.

Section Handler.

Variable twitterApiKey : string.
Variable axios_get : AxiosRequest -> completion AxiosResponse.

(** The arguments of [axios.get]: [query] and [queryType] only
    ("cursor: '' // Start without a cursor for the first page" is commented
    out). *)
Definition request (args : Args) : AxiosRequest :=
  {| url := apiUrl;
     params := [ ("query", JSString (query args));
                 ("queryType", JSString (QueryType_toString (queryType args))) ];
     headers := [ ("X-API-Key", twitterApiKey); ("Accept", "application/json") ] |}.

Definition header (args : Args) : string :=
  "**Search Results for Query " ++ DQ ++ query args ++ DQ ++ " (Type: "
  ++ QueryType_toString (queryType args) ++ "):**" ++ LF ++ LF.

(** "Add pagination info if available (though we don't use the cursor yet)" *)
Definition add_pagination (responseData : value) (output : string) : completion string :=
  hasNextPage <- Get responseData "has_next_page" ;;
  nextCursor <- Get responseData "next_cursor" ;;
  if ToBoolean hasNextPage && ToBoolean nextCursor
  then Normal (output ++ ("*Note: More results may be available (API indicates next page exists).*" ++ LF))
  else Normal output.

(** "Format the Output": the report, before the length safeguard. *)
Definition format_output (args : Args) (tweetsArray : list value)
    (responseData : value) : completion string :=
  output <- forEach ("(tweet.text || " ++ DQ ++ DQ ++ ")") tweetsArray 0 (header args) ;;
  add_pagination responseData output.

(** The body of [try]. *)
Definition try_block (args : Args) : completion string :=
  response <- axios_get (request args) ;;
  let responseData := data response in
  bad <- bad_shape responseData ;;
  if bad
  then
    let errorMessage := errorMessage responseData in
    _ <- console_error ("API returned unexpected data structure for query "
                        ++ DQ ++ query args ++ DQ ++ ":")
                       [errorMessage; responseData] ;;
    errorMessage <- ToString errorMessage ;;
    Normal ("Error: Failed to fetch tweets. API Response: " ++ errorMessage)
  else
    tweets <- Get responseData "tweets" ;;
    match tweets with
    | JSArray [] =>
        Normal ("No tweets found matching the search query: " ++ DQ ++ query args ++ DQ ++ ".")
    | JSArray tweetsArray =>
        output <- format_output args tweetsArray responseData ;;
        Normal (cap_output output)
    | _ => (* not reached: the shape check has seen an array *)
        Throw (TypeError "Cannot read properties of undefined (reading 'length')")
    end.

(** The body of [catch (error)]. *)
Definition catch_block (args : Args) (error : exn) : completion string :=
  if isAxiosError error
  then
    let status := response_status error in
    let apiMessage := apiMessage error in
    if strict_eq_number status 401 || strict_eq_number status 403
    then
      status <- ToString status ;;
      Normal ("Error: Authentication failed. Please check if the TWITTER_API_IO_KEY is correct and valid. (Status: "
              ++ status ++ ")")
    else if strict_eq_number status 400
    then
      apiMessage <- ToString apiMessage ;;
      Normal ("Error: Bad request. The search query " ++ DQ ++ query args ++ DQ
              ++ " might be invalid or improperly formatted. Please check the query syntax. (Status: 400, Message: "
              ++ apiMessage ++ ")")
    else if strict_eq_number status 404
    then Normal "Error: API endpoint not found or unavailable. Please check the API configuration. (Status: 404)"
    else if strict_eq_number status 429
    then
      status <- ToString status ;;
      Normal ("Error: API rate limit exceeded. Please wait and try again later. (Status: " ++ status ++ ")")
    else
      status <- ToString (or_else status (JSString "N/A")) ;;
      apiMessage <- ToString apiMessage ;;
      Normal ("Error: An API error occurred. Status: " ++ status ++ ", Message: " ++ apiMessage)
  else
    Normal ("Error: An unexpected error occurred while searching tweets: " ++ error_message error).

Definition run (args : Args) : completion string :=
  try_catch (try_block args) (catch_block args).

End Handler.

End Basic.

(* ================================================================= *)
(** ** Sample requests, answers and failures *)

Definition sample_args : Paginated.Args :=
  Paginated.mkArgs (DQ ++ "AI" ++ DQ ++ " from:openai") Latest None.

Definition sample_tweet (id text user : string) : value :=
  JSObject [ ("id", JSString id); ("text", JSString text);
             ("createdAt", JSString "Tue Dec 10 07:00:30 +0000 2024");
             ("url", JSString ("https://x.com/" ++ user ++ "/status/" ++ id));
             ("author", JSObject [("userName", JSString user)]);
             ("likeCount", JSNumber 12); ("retweetCount", JSNumber 3);
             ("replyCount", JSNumber 0); ("viewCount", JSNumber 4500) ].

(** A last page of two tweets, and a page of one tweet with a successor. *)
Definition sample_body : value :=
  JSObject [ ("tweets", JSArray [ sample_tweet "1866332309399781537" "Hello" "openai";
                                  sample_tweet "1866332309399781000" "World" "openai" ]);
             ("has_next_page", JSBool false);
             ("next_cursor", JSString "") ].

Definition continued_body : value :=
  JSObject [ ("tweets", JSArray [ sample_tweet "1866332309399781537" "Hello" "openai" ]);
             ("has_next_page", JSBool true);
             ("next_cursor", JSString "DAACCgACGdy") ].

(** An empty page. *)
Definition empty_body (has_next_page : bool) (next_cursor : string) : value :=
  JSObject [ ("tweets", JSArray []);
             ("has_next_page", JSBool has_next_page);
             ("next_cursor", JSString next_cursor) ].

(** A body the provider sends with status 200 to refuse a query. *)
Definition rejected_body : value :=
  JSObject [ ("status", JSString "error"); ("message", JSString "Invalid query syntax") ].

(** The same refusal in a body that has a key named [toString], which
    leaves the body without a conversion to a primitive. *)
Definition shadowing_body : value :=
  JSObject [ ("message", JSString "Invalid query syntax"); ("toString", JSNumber 1) ].

Fixpoint string_repeat (c : ascii) (n : nat) : string :=
  match n with
  | O => EmptyString
  | S n' => String c (string_repeat c n')
  end.




(** A query of 25,000 characters. *)
Definition oversized_query : string := string_repeat "q" 25000.

(** A page that overflows the length safeguard: one tweet whose permalink
    is 25,000 characters long, and a next page. *)
Definition oversized_tweet : value :=
  JSObject [ ("id", JSString "1"); ("url", JSString (string_repeat "x" 25000)) ].

Definition oversized_body : value :=
  JSObject [ ("tweets", JSArray [ oversized_tweet ]);
             ("has_next_page", JSBool true);
             ("next_cursor", JSString "DAACCgACGdy") ].

(** A page whose only tweet has an [id] and nothing else, and one whose
    tweet has [null] in every other field. *)
Definition bare_tweet : value := JSObject [ ("id", JSString "1866332309399781537") ].

Definition null_tweet : value :=
  JSObject [ ("id", JSString "1866332309399781537"); ("text", JSNull);
             ("createdAt", JSNull); ("url", JSNull); ("author", JSNull);
             ("likeCount", JSNull); ("retweetCount", JSNull);
             ("replyCount", JSNull); ("viewCount", JSNull) ].

Definition page_of (tweet : value) : value :=
  JSObject [ ("tweets", JSArray [ tweet ]); ("has_next_page", JSBool false);
             ("next_cursor", JSString "") ].

(** An empty page whose [next_cursor] cannot be converted to a string. *)
Definition unprintable_cursor_body : value :=
  JSObject [ ("tweets", JSArray []);
             ("has_next_page", JSBool true);
             ("next_cursor", JSObject [ ("toString", JSNumber 1) ]) ].

(** An error body whose [msg] cannot be converted to a string. *)
Definition unprintable_body : value :=
  JSObject [ ("msg", JSObject [ ("toString", JSNumber 1) ]) ].

(** The network: an answer with status 200, or a failure. *)
Definition answers (body : value) : AxiosRequest -> completion AxiosResponse :=
  fun _ => Normal (mkResponse 200 body).

Definition fails (e : exn) : AxiosRequest -> completion AxiosResponse :=
  fun _ => Throw e.

(** Failures of [axios.get]: no answer from the provider, and an answer with
    a status outside 2xx. *)
Definition connection_refused : exn :=
  AxiosError "connect ECONNREFUSED 104.26.1.127:443" None.

Definition http_failure (status : Z) (body : value) : exn :=
  AxiosError ("Request failed with status code " ++ string_of_Z status)
             (Some (mkResponse status body)).

(* ================================================================= *)
(** ** Predicates on completions and reports *)

Definition is_normal {A : Type} (c : completion A) : bool :=
  match c with Normal _ => true | Throw _ => false end.

(** The string [run] returned (the empty string if it threw). *)
Definition report_of (c : completion string) : string :=
  match c with Normal report => report | Throw _ => "" end.

(** [c] throws nothing but exceptions of the runtime (no axios error). *)
Definition throws_no_axios_error {A : Type} (c : completion A) : Prop :=
  forall e, c = Throw e -> isAxiosError e = false.

(** [contains needle hay]: [needle] occurs in [hay]. *)
Fixpoint contains (needle hay : string) : bool :=
  prefix needle hay ||
  match hay with
  | EmptyString => false
  | String _ rest => contains needle rest
  end.

(** [ends_with suffix s]: [s] ends in [suffix]. *)
Fixpoint ends_with (suffix s : string) : bool :=
  (s =? suffix) ||
  match s with
  | EmptyString => false
  | String _ rest => ends_with suffix rest
  end.


(** The lines the callback appends, once its reads and conversions have
    returned. *)
Definition tweet_block (index : nat) (authorUsername id tweetText createdAt url
                                      likes retweets replies views : string) : string :=
  (string_of_nat (index + 1) ++ ". **Author:** @" ++ authorUsername ++ LF)
  ++ ("   **ID:** " ++ id ++ LF)
  ++ ("   **Text:** " ++ tweetText ++ LF)
  ++ ("   **Created:** " ++ createdAt ++ LF)
  ++ ("   **Link:** " ++ url ++ LF)
  ++ ("   **Stats:** Likes: " ++ likes ++ ", Retweets: " ++ retweets
      ++ ", Replies: " ++ replies ++ ", Views: " ++ views ++ LF ++ LF).


(** [report] is the text the paginated handler has formatted from a
    non-empty page when it reaches the length safeguard. *)
Definition Paginated_report (twitterApiKey : string)
    (axios_get : AxiosRequest -> completion AxiosResponse)
    (args : Paginated.Args) (report : string) : Prop :=
  exists response tweet rest,
    axios_get (Paginated.request twitterApiKey args) = Normal response
    /\ OptGet (data response) "tweets" = JSArray (tweet :: rest)
    /\ Paginated.format_output args (tweet :: rest)
         (OptGet (data response) "has_next_page")
         (OptGet (data response) "next_cursor") = Normal report.

(** The same for the basic handler. *)
Definition Basic_report (twitterApiKey : string)
    (axios_get : AxiosRequest -> completion AxiosResponse)
    (args : Basic.Args) (report : string) : Prop :=
  exists response tweet rest,
    axios_get (Basic.request twitterApiKey args) = Normal response
    /\ OptGet (data response) "tweets" = JSArray (tweet :: rest)
    /\ Basic.format_output args (tweet :: rest) (data response) = Normal report.

(** What the paginated handler formats from [sample_body] and from
    [oversized_body]. *)
Definition sample_report : string :=
  Eval vm_compute in
    report_of (Paginated.format_output sample_args
                 [ sample_tweet "1866332309399781537" "Hello" "openai";
                   sample_tweet "1866332309399781000" "World" "openai" ]
                 (JSBool false) (JSString "")).

Definition oversized_report : string :=
  report_of (Paginated.format_output sample_args [ oversized_tweet ]
               (JSBool true) (JSString "DAACCgACGdy")).

(** What the shape check logs for [query] and the body [responseData]
    before it returns its error line. *)
Definition shape_check_log (query : string) (responseData : value) : completion unit :=
  console_error ("API returned unexpected data structure for query "
                 ++ DQ ++ query ++ DQ ++ ":")
                [errorMessage responseData; responseData].

(** The two pagination footers of a non-empty page, the two notes of an
    empty page, and the one the paginated handler chooses for the values
    [hasNextPage] and [nextCursor] of the body, [cursor] being [nextCursor]
    as a string. *)
Definition more_results_footer (cursor : string) : string :=
  LF ++ "*Note: More results available. Use this cursor for the next page: " ++ cursor ++ "*" ++ LF.

Definition end_of_results_footer : string := LF ++ "*Note: End of results.*" ++ LF.

Definition more_results_note (cursor : string) : string :=
  LF ++ "*Note: The API indicates more results might exist. Use this cursor for the next page: "
     ++ cursor ++ "*".

Definition end_of_results_note : string := LF ++ "*Note: End of results.*".

Definition page_footer (hasNextPage nextCursor : value) (cursor : string) : string :=
  if ToBoolean hasNextPage && ToBoolean nextCursor
  then more_results_footer cursor else end_of_results_footer.

Definition page_note (hasNextPage nextCursor : value) (cursor : string) : string :=
  if ToBoolean hasNextPage && ToBoolean nextCursor
  then more_results_note cursor else end_of_results_note.

(** The two wordings of an empty page. *)
Definition no_tweets_found (query : string) : string :=
  "No tweets found matching the search query: " ++ DQ ++ query ++ DQ ++ ".".

Definition no_more_tweets (query : string) : string :=
  "No more tweets found on this page for the query: " ++ DQ ++ query ++ DQ ++ ".".

(** The bad-request line of each handler, [m] being the provider's message. *)
Definition Paginated_bad_request (args : Paginated.Args) (m : string) : string :=
  "Error: Bad request. "
  ++ match truthy (Paginated.cursor args) with
     | Some _ => "The search query " ++ DQ ++ Paginated.query args ++ DQ
                 ++ " or the provided cursor might be invalid."
     | None => "The search query " ++ DQ ++ Paginated.query args ++ DQ
               ++ " might be invalid or improperly formatted."
     end
  ++ " Please check the query syntax and cursor value. (Status: 400, Message: " ++ m ++ ")".

Definition Basic_bad_request (args : Basic.Args) (m : string) : string :=
  "Error: Bad request. The search query " ++ DQ ++ Basic.query args ++ DQ
  ++ " might be invalid or improperly formatted. Please check the query syntax. (Status: 400, Message: "
  ++ m ++ ")".

(** [r] is the line the [catch] clause makes of the failure [e], where
    [bad_request] is the handler's bad-request line. *)
Definition status_dispatch (r : completion string) (bad_request : string -> string)
    (e : exn) : Prop :=
  match e with
  | AxiosError _ (Some response) =>
      let s := status response in
      (s = 401%Z \/ s = 403%Z ->
         r = Normal ("Error: Authentication failed. Please check if the TWITTER_API_IO_KEY is correct and valid. (Status: "
                     ++ string_of_Z s ++ ")"))
      /\ (s = 400%Z -> forall m, ToString (apiMessage e) = Normal m ->
         r = Normal (bad_request m))
      /\ (s = 404%Z ->
         r = Normal "Error: API endpoint not found or unavailable. Please check the API configuration. (Status: 404)")
      /\ (s = 429%Z ->
         r = Normal "Error: API rate limit exceeded. Please wait and try again later. (Status: 429)")
      /\ (s <> 401%Z -> s <> 403%Z -> s <> 400%Z -> s <> 404%Z -> s <> 429%Z -> s <> 0%Z ->
         forall m, ToString (apiMessage e) = Normal m ->
         r = Normal ("Error: An API error occurred. Status: " ++ string_of_Z s
                     ++ ", Message: " ++ m))
  | AxiosError _ None =>
      r = Normal "Error: An API error occurred. Status: N/A, Message: No specific message from API."
  | TypeError message =>
      r = Normal ("Error: An unexpected error occurred while searching tweets: " ++ message)
  end.

(** The provider message of a failure: [msg] when it is truthy, else
    [message] when it is truthy, else the fallback; a non-empty string is
    embedded as it is. *)
Definition selects_provider_message (e : exn) : Prop :=
  (ToBoolean (OptGet (response_data e) "msg") = true ->
      apiMessage e = OptGet (response_data e) "msg")
  /\ (ToBoolean (OptGet (response_data e) "msg") = false ->
      ToBoolean (OptGet (response_data e) "message") = true ->
      apiMessage e = OptGet (response_data e) "message")
  /\ (ToBoolean (OptGet (response_data e) "msg") = false ->
      ToBoolean (OptGet (response_data e) "message") = false ->
      apiMessage e = JSString "No specific message from API.")
  /\ (forall m, apiMessage e = JSString m -> ToString (apiMessage e) = Normal m).

(** Induction on values that reaches the elements of arrays. *)
Section value_induction.

Variable P : value -> Prop.
Hypothesis Pundefined : P JSUndefined.
Hypothesis Pnull : P JSNull.
Hypothesis Pbool : forall b, P (JSBool b).
Hypothesis Pnumber : forall n, P (JSNumber n).
Hypothesis Pstring : forall s, P (JSString s).
Hypothesis Parray : forall elements, Forall P elements -> P (JSArray elements).
Hypothesis Pobject : forall fields, P (JSObject fields).

Fixpoint value_elements_ind (v : value) : P v :=
  match v with
  | JSUndefined => Pundefined
  | JSNull => Pnull
  | JSBool b => Pbool b
  | JSNumber n => Pnumber n
  | JSString s => Pstring s
  | JSArray elements =>
      Parray elements
        ((fix all (l : list value) : Forall P l :=
            match l with
            | [] => Forall_nil P
            | x :: rest => Forall_cons x (value_elements_ind x) (all rest)
            end) elements)
  | JSObject fields => Pobject fields
  end.

End value_induction.

(* ================================================================= *)
(** ** Start-up and the capability's schema *)

(** [const twitterApiKey = process.env.TWITTER_API_IO_KEY
     if (!twitterApiKey) { console.error(...); process.exit(1) }]
    An environment variable is a string or [undefined]; the agent and its
    capability are only defined when the process goes on. *)
Inductive startup : Type :=
| Exit (code : Z)
| Continue (twitterApiKey : string).

Definition validate_api_key (TWITTER_API_IO_KEY : option string) : startup :=
  match truthy TWITTER_API_IO_KEY with
  | Some twitterApiKey => Continue twitterApiKey
  | None => Exit 1
  end.

(** The zod combinators the two schemas are built from; [None] is a
    validation error. *)
Module Zod.

(** [z.string()] *)
Definition string (input : value) : option String.string :=
  match input with JSString s => Some s | _ => None end.

(** [z.enum(['Latest', 'Top'])] *)
Definition enum (input : value) : option QueryType :=
  match input with
  | JSString s =>
      if s =? "Latest" then Some Latest
      else if s =? "Top" then Some Top
      else None
  | _ => None
  end.

(** [.default(d)]: an [undefined] input is replaced by [d]. *)
Definition default {A : Type} (schema : value -> option A) (d : A)
    (input : value) : option A :=
  match input with JSUndefined => Some d | _ => schema input end.

(** [.optional()]: an [undefined] input is accepted as it is. *)
Definition optional {A : Type} (schema : value -> option A)
    (input : value) : option (option A) :=
  match input with
  | JSUndefined => Some None
  | _ => match schema input with Some a => Some (Some a) | None => None end
  end.

End Zod.

(** [z.object({ query: z.string(), queryType: z.enum([...]).default('Latest'),
                cursor: z.string().optional() })]
    of the paginated handler: the input must be an object, a key that is
    not there reads as [undefined], keys the schema does not name are
    dropped. *)
Definition Paginated_schema (input : value) : option Paginated.Args :=
  match input with
  | JSObject fields =>
      match Zod.string (lookup "query" fields),
            Zod.default Zod.enum Latest (lookup "queryType" fields),
            Zod.optional Zod.string (lookup "cursor" fields) with
      | Some query, Some queryType, Some cursor =>
          Some (Paginated.mkArgs query queryType cursor)
      | _, _, _ => None
      end
  | _ => None
  end.

(** [z.object({ query: z.string(), queryType: z.enum([...]).default('Latest') })]
    of the basic handler. *)
Definition Basic_schema (input : value) : option Basic.Args :=
  match input with
  | JSObject fields =>
      match Zod.string (lookup "query" fields),
            Zod.default Zod.enum Latest (lookup "queryType" fields) with
      | Some query, Some queryType => Some (Basic.mkArgs query queryType)
      | _, _ => None
      end
  | _ => None
  end.

(* ================================================================= *)
(** ** Further predicates on tweets and reports *)

(** The own properties of a tweet: a value that is not an object has none. *)
Definition fields_of (tweet : value) : list (string * value) :=
  match tweet with JSObject fields => fields | _ => [] end.

Definition nullish (v : value) : bool :=
  match v with JSUndefined | JSNull => true | _ => false end.

(** The blocks of a report, one after the other. *)
Definition join_blocks (blocks : list string) : string :=
  fold_right append "" blocks.

(** [v] cannot be interpolated in a template literal: it is an object with
    an own [toString] key, or an array that holds such a value. *)
Fixpoint unprintable (v : value) : bool :=
  match v with
  | JSArray elements =>
      (fix any (l : list value) : bool :=
         match l with
         | [] => false
         | x :: rest => unprintable x || any rest
         end) elements
  | JSObject fields => has_own "toString" fields
  | _ => false
  end.

(** The statuses for which the [catch] clause interpolates the provider's
    message. *)
Definition interpolates_message (e : exn) : bool :=
  isAxiosError e
  && negb (strict_eq_number (response_status e) 401)
  && negb (strict_eq_number (response_status e) 403)
  && negb (strict_eq_number (response_status e) 404)
  && negb (strict_eq_number (response_status e) 429).

(** The line the [catch] clauses make of an exception that is not an axios
    error. *)
Definition unexpected_error (message : string) : string :=
  "Error: An unexpected error occurred while searching tweets: " ++ message.

(** What each handler makes of a [tweets] array inside [try]: the branch
    of the empty page, or the formatted report under the length
    safeguard. *)
Definition Paginated_page (args : Paginated.Args) (responseData : value)
    (tweetsArray : list value) : completion string :=
  match tweetsArray with
  | [] => Paginated.empty_page args (OptGet responseData "has_next_page")
                                    (OptGet responseData "next_cursor")
  | _ :: _ =>
      output <- Paginated.format_output args tweetsArray
                  (OptGet responseData "has_next_page")
                  (OptGet responseData "next_cursor") ;;
      Normal (cap_output output)
  end.

Definition Basic_page (args : Basic.Args) (responseData : value)
    (tweetsArray : list value) : completion string :=
  match tweetsArray with
  | [] => Normal ("No tweets found matching the search query: "
                  ++ DQ ++ Basic.query args ++ DQ ++ ".")
  | _ :: _ =>
      output <- Basic.format_output args tweetsArray responseData ;;
      Normal (cap_output output)
  end.

(* ================================================================= *)
(** ** Strings *)

Lemma append_assoc (a b c : string) : (a ++ b) ++ c = a ++ (b ++ c).
Proof.
  induction a as [|x a IH]; simpl; [reflexivity | now rewrite IH].
Qed.

Lemma append_nil_r (a : string) : a ++ "" = a.
Proof.
  induction a as [|x a IH]; simpl; [reflexivity | now rewrite IH].
Qed.

Lemma length_append (a b : string) :
  String.length (a ++ b) = String.length a + String.length b.
Proof.
  induction a as [|x a IH]; simpl; [reflexivity | now rewrite IH].
Qed.

Lemma substring0_short (n : nat) (s : string) :
  String.length s <= n -> substring0 n s = s.
Proof.
  unfold substring0. revert n.
  induction s as [|x s IH]; intros [|n] H; simpl in *; try reflexivity; try lia.
  f_equal. apply IH. lia.
Qed.

Lemma substring0_length (n : nat) (s : string) :
  n <= String.length s -> String.length (substring0 n s) = n.
Proof.
  unfold substring0. revert n.
  induction s as [|x s IH]; intros [|n] H; simpl in *; try reflexivity; try lia.
  f_equal. apply IH. lia.
Qed.

Lemma substring0_prefix (n : nat) (s : string) :
  exists rest, s = substring0 n s ++ rest.
Proof.
  unfold substring0. revert n.
  induction s as [|x s IH]; intros [|n]; simpl.
  - now exists "".
  - now exists "".
  - now exists (String x s).
  - destruct (IH n) as [rest Hrest]. exists rest. now rewrite <- Hrest.
Qed.

Lemma ends_with_append (a b : string) : ends_with b (a ++ b) = true.
Proof.
  induction a as [|x a IH]; simpl.
  - destruct b; simpl; [reflexivity |].
    now rewrite Ascii.eqb_refl, String.eqb_refl.
  - rewrite IH. apply orb_true_r.
Qed.

Lemma prefix_append (b c : string) : prefix b (b ++ c) = true.
Proof.
  apply prefix_correct. revert c.
  induction b as [|x b IH]; intros c; simpl.
  - now destruct c.
  - now rewrite IH.
Qed.

Lemma contains_prefix (b s : string) : prefix b s = true -> contains b s = true.
Proof.
  intros H. destruct s; unfold contains; fold contains; now rewrite H.
Qed.

Lemma contains_append (a b c : string) : contains b (a ++ b ++ c) = true.
Proof.
  induction a as [|x a IH].
  - cbn [append]. apply contains_prefix, prefix_append.
  - cbn [append]. unfold contains; fold contains. rewrite IH. apply orb_true_r.
Qed.


(* ================================================================= *)
(** ** The shape check, and how [run] unfolds on each kind of outcome *)

Lemma bad_shape_not_array (responseData : value) :
  isArray (OptGet responseData "tweets") = false ->
  bad_shape responseData = Normal true.
Proof.
  intros H. unfold bad_shape.
  destruct responseData as [| |b|n|s|xs|fields]; cbn in *; try reflexivity.
  - now destruct b.
  - now destruct (n =? 0)%Z.
  - now destruct (s =? "").
  - now rewrite H.
Qed.

Lemma bad_shape_array (responseData : value) (tweetsArray : list value) :
  OptGet responseData "tweets" = JSArray tweetsArray ->
  exists fields, responseData = JSObject fields
                 /\ bad_shape responseData = Normal false.
Proof.
  intros H.
  destruct responseData as [| |b|n|s|xs|fields]; cbn in H; try discriminate H.
  exists fields. split; [reflexivity |].
  unfold bad_shape. cbn. now rewrite H.
Qed.

Section PaginatedRun.

Variable twitterApiKey : string.
Variable axios_get : AxiosRequest -> completion AxiosResponse.
Variable args : Paginated.Args.

Let run := Paginated.run twitterApiKey axios_get args.
Let request := Paginated.request twitterApiKey args.

Lemma Paginated_run_rejected (e : exn) :
  axios_get request = Throw e ->
  run = Paginated.catch_block args e.
Proof.
  intros H. unfold run, Paginated.run, Paginated.try_block.
  fold request. now rewrite H.
Qed.

Lemma Paginated_run_bad_shape (response : AxiosResponse) (m : string) :
  axios_get request = Normal response ->
  isArray (OptGet (data response) "tweets") = false ->
  shape_check_log (Paginated.query args) (data response) = Normal tt ->
  ToString (errorMessage (data response)) = Normal m ->
  run = Normal ("Error: Failed to fetch tweets. API Response: " ++ m).
Proof.
  intros Hget Hshape Hlog Hm. unfold run, Paginated.run, Paginated.try_block.
  fold request. rewrite Hget. cbn [bind].
  rewrite (bad_shape_not_array _ Hshape). cbn [bind].
  unfold shape_check_log in Hlog. rewrite Hlog. cbn [bind].
  now rewrite Hm.
Qed.

Lemma Paginated_run_bad_shape_log (response : AxiosResponse) (e : exn) :
  axios_get request = Normal response ->
  isArray (OptGet (data response) "tweets") = false ->
  shape_check_log (Paginated.query args) (data response) = Throw e ->
  run = Paginated.catch_block args e.
Proof.
  intros Hget Hshape Hlog. unfold run, Paginated.run, Paginated.try_block.
  fold request. rewrite Hget. cbn [bind].
  rewrite (bad_shape_not_array _ Hshape). cbn [bind].
  unfold shape_check_log in Hlog. now rewrite Hlog.
Qed.

Lemma Paginated_run_empty (response : AxiosResponse) :
  axios_get request = Normal response ->
  OptGet (data response) "tweets" = JSArray [] ->
  run = try_catch
          (Paginated.empty_page args (OptGet (data response) "has_next_page")
                                     (OptGet (data response) "next_cursor"))
          (Paginated.catch_block args).
Proof.
  intros Hget Htweets. unfold run, Paginated.run, Paginated.try_block.
  fold request. rewrite Hget. cbn [bind].
  destruct (bad_shape_array _ _ Htweets) as (fields & Hobj & Hok).
  rewrite Hok. cbn [bind]. rewrite Hobj in *. cbn [Get OptGet bind] in *.
  now rewrite Htweets.
Qed.

Lemma Paginated_run_report (response : AxiosResponse) (tweet : value)
    (rest : list value) (report : string) :
  axios_get request = Normal response ->
  OptGet (data response) "tweets" = JSArray (tweet :: rest) ->
  Paginated.format_output args (tweet :: rest)
    (OptGet (data response) "has_next_page")
    (OptGet (data response) "next_cursor") = Normal report ->
  run = Normal (cap_output report).
Proof.
  intros Hget Htweets Hreport. unfold run, Paginated.run, Paginated.try_block.
  fold request. rewrite Hget. cbn [bind].
  destruct (bad_shape_array _ _ Htweets) as (fields & Hobj & Hok).
  rewrite Hok. cbn [bind]. rewrite Hobj in *. cbn [Get OptGet bind] in *.
  rewrite Htweets, Hreport. reflexivity.
Qed.

End PaginatedRun.

Section BasicRun.

Variable twitterApiKey : string.
Variable axios_get : AxiosRequest -> completion AxiosResponse.
Variable args : Basic.Args.

Let run := Basic.run twitterApiKey axios_get args.
Let request := Basic.request twitterApiKey args.

Lemma Basic_run_rejected (e : exn) :
  axios_get request = Throw e ->
  run = Basic.catch_block args e.
Proof.
  intros H. unfold run, Basic.run, Basic.try_block.
  fold request. now rewrite H.
Qed.

Lemma Basic_run_bad_shape (response : AxiosResponse) (m : string) :
  axios_get request = Normal response ->
  isArray (OptGet (data response) "tweets") = false ->
  shape_check_log (Basic.query args) (data response) = Normal tt ->
  ToString (errorMessage (data response)) = Normal m ->
  run = Normal ("Error: Failed to fetch tweets. API Response: " ++ m).
Proof.
  intros Hget Hshape Hlog Hm. unfold run, Basic.run, Basic.try_block.
  fold request. rewrite Hget. cbn [bind].
  rewrite (bad_shape_not_array _ Hshape). cbn [bind].
  unfold shape_check_log in Hlog. rewrite Hlog. cbn [bind].
  now rewrite Hm.
Qed.

Lemma Basic_run_bad_shape_log (response : AxiosResponse) (e : exn) :
  axios_get request = Normal response ->
  isArray (OptGet (data response) "tweets") = false ->
  shape_check_log (Basic.query args) (data response) = Throw e ->
  run = Basic.catch_block args e.
Proof.
  intros Hget Hshape Hlog. unfold run, Basic.run, Basic.try_block.
  fold request. rewrite Hget. cbn [bind].
  rewrite (bad_shape_not_array _ Hshape). cbn [bind].
  unfold shape_check_log in Hlog. now rewrite Hlog.
Qed.

Lemma Basic_run_empty (response : AxiosResponse) :
  axios_get request = Normal response ->
  OptGet (data response) "tweets" = JSArray [] ->
  run = Normal ("No tweets found matching the search query: "
                ++ DQ ++ Basic.query args ++ DQ ++ ".").
Proof.
  intros Hget Htweets. unfold run, Basic.run, Basic.try_block.
  fold request. rewrite Hget. cbn [bind].
  destruct (bad_shape_array _ _ Htweets) as (fields & Hobj & Hok).
  rewrite Hok. cbn [bind]. rewrite Hobj in *. cbn [Get OptGet bind] in *.
  now rewrite Htweets.
Qed.

Lemma Basic_run_report (response : AxiosResponse) (tweet : value)
    (rest : list value) (report : string) :
  axios_get request = Normal response ->
  OptGet (data response) "tweets" = JSArray (tweet :: rest) ->
  Basic.format_output args (tweet :: rest) (data response) = Normal report ->
  run = Normal (cap_output report).
Proof.
  intros Hget Htweets Hreport. unfold run, Basic.run, Basic.try_block.
  fold request. rewrite Hget. cbn [bind].
  destruct (bad_shape_array _ _ Htweets) as (fields & Hobj & Hok).
  rewrite Hok. cbn [bind]. rewrite Hobj in *. cbn [Get OptGet bind] in *.
  rewrite Htweets, Hreport. reflexivity.
Qed.

End BasicRun.

(* ================================================================= *)
(** ** One tweet block *)

Lemma or_else_truthy (a b : value) : ToBoolean a = true -> or_else a b = a.
Proof.
  unfold or_else. now intros ->.
Qed.

Lemma or_else_falsy (a b : value) : ToBoolean a = false -> or_else a b = b.
Proof.
  unfold or_else. now intros ->.
Qed.

Lemma ToBoolean_string (s : string) : s <> "" -> ToBoolean (JSString s) = true.
Proof.
  intros H. cbn. apply String.eqb_neq in H. now rewrite H.
Qed.

Lemma is_normal_report_of (c : completion string) :
  is_normal c = true -> c = Normal (report_of c).
Proof.
  destruct c; [reflexivity | discriminate].
Qed.

Lemma Normal_inj {A : Type} (x y : A) : Normal x = Normal y -> x = y.
Proof.
  intros H. now injection H.
Qed.

(** Peel the first [bind] of a hypothesis that says a chain returned. *)
Ltac peel H :=
  match type of H with
  | bind ?c _ = Normal _ =>
      let E := fresh "E" in
      destruct c eqn:E; cbn [bind] in H; [| discriminate H]
  end.

Lemma forEach_callback_inv (callee : string) (fields : list (string * value))
    (index : nat) (output output' : string) :
  forEach_callback callee (JSObject fields) index output = Normal output' ->
  exists authorUsername id tweetText createdAt url likes retweets replies views,
    ToString (or_else (OptGet (lookup "author" fields) "userName")
                      (JSString "Unknown User")) = Normal authorUsername
    /\ ToString (lookup "id" fields) = Normal id
    /\ truncate_text callee (or_else (lookup "text" fields) (JSString "")) = Normal tweetText
    /\ ToString (lookup "createdAt" fields) = Normal createdAt
    /\ ToString (lookup "url" fields) = Normal url
    /\ ToString (or_else (lookup "likeCount" fields) (JSNumber 0)) = Normal likes
    /\ ToString (or_else (lookup "retweetCount" fields) (JSNumber 0)) = Normal retweets
    /\ ToString (or_else (lookup "replyCount" fields) (JSNumber 0)) = Normal replies
    /\ ToString (or_else (lookup "viewCount" fields) (JSNumber 0)) = Normal views
    /\ output' = output ++ tweet_block index authorUsername id tweetText createdAt url
                                       likes retweets replies views.
Proof.
  unfold forEach_callback. cbn [Get bind]. intros H.
  peel H. peel H. peel H. peel H. peel H. peel H. peel H. peel H. peel H.
  apply Normal_inj in H. subst output'.
  do 9 eexists. repeat (split; [reflexivity |]).
  unfold tweet_block. rewrite !append_assoc. reflexivity.
Qed.

Lemma forEach_callback_returns (callee : string) (fields : list (string * value))
    (index : nat) (output authorUsername id tweetText createdAt url
                   likes retweets replies views : string) :
  ToString (or_else (OptGet (lookup "author" fields) "userName")
                    (JSString "Unknown User")) = Normal authorUsername ->
  ToString (lookup "id" fields) = Normal id ->
  truncate_text callee (or_else (lookup "text" fields) (JSString "")) = Normal tweetText ->
  ToString (lookup "createdAt" fields) = Normal createdAt ->
  ToString (lookup "url" fields) = Normal url ->
  ToString (or_else (lookup "likeCount" fields) (JSNumber 0)) = Normal likes ->
  ToString (or_else (lookup "retweetCount" fields) (JSNumber 0)) = Normal retweets ->
  ToString (or_else (lookup "replyCount" fields) (JSNumber 0)) = Normal replies ->
  ToString (or_else (lookup "viewCount" fields) (JSNumber 0)) = Normal views ->
  forEach_callback callee (JSObject fields) index output
  = Normal (output ++ tweet_block index authorUsername id tweetText createdAt url
                                  likes retweets replies views).
Proof.
  intros Ha Hi Ht Hc Hu Hl Hr Hp Hv.
  unfold forEach_callback. cbn [Get bind].
  rewrite Ht, Ha, Hi, Hc, Hu, Hl, Hr, Hp, Hv. cbn [bind].
  unfold tweet_block. rewrite !append_assoc. reflexivity.
Qed.


(* ================================================================= *)
(** ** The cursor argument *)

(** C10. In the paginated handler a cursor given as the empty string is
    indistinguishable from an omitted cursor: for every query, mode, API key
    and behaviour of the network, the request handed to [axios.get] is the
    same and [run] completes in the same way; in particular the cursor
    parameter is the empty string, the header is the first-page header and
    the empty-page wording is the one used without a cursor. *)
Theorem C10_empty_cursor_same_as_omitted
    (twitterApiKey : string) (axios_get : AxiosRequest -> completion AxiosResponse)
    (query : string) (queryType : QueryType) :
  let empty := Paginated.mkArgs query queryType (Some "") in
  let omitted := Paginated.mkArgs query queryType None in
  Paginated.request twitterApiKey empty = Paginated.request twitterApiKey omitted
  /\ Paginated.run twitterApiKey axios_get empty
     = Paginated.run twitterApiKey axios_get omitted
  /\ lookup "cursor" (params (Paginated.request twitterApiKey empty)) = JSString ""
  /\ Paginated.header empty
     = "**Search Results for Query " ++ DQ ++ query ++ DQ ++ " (Type: "
       ++ QueryType_toString queryType ++ ") - First Page:**" ++ LF ++ LF
  /\ (forall hasNextPage nextCursor,
        Paginated.empty_page empty hasNextPage nextCursor
        = Paginated.empty_page omitted hasNextPage nextCursor)
  /\ Paginated.empty_page empty JSNull JSNull
     = Normal ("No tweets found matching the search query: " ++ DQ ++ query ++ DQ ++ "."
               ++ LF ++ "*Note: End of results.*").
Proof.
  intros empty omitted.
  (* both records go through [truthy] and [or_else] only, which send
     [Some ""] and [None] to the same value *)
  repeat split; try reflexivity.
  - unfold Paginated.empty_page. cbn [truthy Paginated.cursor empty ToBoolean andb].
    cbn [String.eqb negb Paginated.query]. now rewrite !append_assoc.
Qed.

(** C5, as the sources have it. The paginated handler always sends a
    [cursor] parameter, whose value is the empty string when the caller
    omits the cursor (and the given string when it is not empty); the
    request is the only one [run] hands to [axios.get].  The basic handler
    of [src/index.ts] takes no cursor and sends [query] and [queryType]
    only. *)
Theorem C5_paginated_omitted_cursor_sent_as_empty_string
    (twitterApiKey query : string) (queryType : QueryType) :
  let omitted := Paginated.mkArgs query queryType None in
  has_own "cursor" (params (Paginated.request twitterApiKey omitted)) = true
  /\ lookup "cursor" (params (Paginated.request twitterApiKey omitted)) = JSString ""
  /\ (forall cursor, has_own "cursor"
        (params (Paginated.request twitterApiKey (Paginated.mkArgs query queryType cursor))) = true)
  /\ (forall cursor, cursor <> "" ->
        lookup "cursor"
          (params (Paginated.request twitterApiKey (Paginated.mkArgs query queryType (Some cursor))))
        = JSString cursor)
  /\ (forall http http',
        http (Paginated.request twitterApiKey omitted)
        = http' (Paginated.request twitterApiKey omitted) ->
        Paginated.run twitterApiKey http omitted = Paginated.run twitterApiKey http' omitted)
  /\ (forall args, params (Basic.request twitterApiKey args)
                   = [ ("query", JSString (Basic.query args));
                       ("queryType", JSString (QueryType_toString (Basic.queryType args))) ]).
Proof.
  intros omitted. repeat split; try reflexivity.
  - intros cursor Hne. cbn [Paginated.request params lookup String.eqb Ascii.eqb Bool.eqb].
    cbn [Paginated.cursor of_optional]. now rewrite (or_else_truthy _ _ (ToBoolean_string _ Hne)).
  - intros http http' H. unfold Paginated.run, Paginated.try_block. now rewrite H.
Qed.

Lemma C5_paginated_omitted_cursor_sent_as_empty_string_witness :
  lookup "cursor"
    (params (Paginated.request "KEY" (Paginated.mkArgs "from:openai" Latest (Some "DAACCgACGdy"))))
  = JSString "DAACCgACGdy"
  /\ Paginated.run "KEY" (answers sample_body) (Paginated.mkArgs "from:openai" Latest None)
     = Paginated.run "KEY" (fun _ => Normal (mkResponse 200 sample_body))
         (Paginated.mkArgs "from:openai" Latest None).
Proof.
  destruct (C5_paginated_omitted_cursor_sent_as_empty_string "KEY" "from:openai" Latest)
    as (_ & _ & _ & Hgiven & Hrequest & _).
  split.
  - apply Hgiven. discriminate.
  - apply Hrequest. reflexivity.
Defined.

(** C5 fails on the basic handler: with the cursor omitted (it cannot be
    given), the request carries no [cursor] parameter at all. *)
Lemma C5_counterexample_basic_request_has_no_cursor :
  has_own "cursor" (params (Basic.request "KEY" (Basic.mkArgs "#opensource OR #AI" Latest))) = false
  /\ lookup "cursor" (params (Basic.request "KEY" (Basic.mkArgs "#opensource OR #AI" Latest)))
     <> JSString "".
Proof.
  split; [reflexivity | discriminate].
Qed.

(* ================================================================= *)
(** ** The length safeguard *)

Lemma cap_output_long (output : string) :
  25000 < String.length output ->
  cap_output output = substring0 25000 output ++ truncation_notice.
Proof.
  intros H. unfold cap_output, maxTotalOutputLength.
  now apply Nat.ltb_lt in H as ->.
Qed.

Lemma cap_output_short (output : string) :
  String.length output <= 25000 ->
  cap_output output = output.
Proof.
  intros H. unfold cap_output, maxTotalOutputLength.
  now apply Nat.ltb_ge in H as ->.
Qed.

(** C3, as the sources have it. Whenever either handler has formatted a
    report from a non-empty page: if the report is longer than 25,000
    characters, [run] returns its first 25,000 characters (a prefix of the
    report of exactly that length) followed by the fixed truncation notice;
    if it has at most 25,000 characters, [run] returns it unchanged. *)
Theorem C3_report_capped_at_25000
    (twitterApiKey : string) (axios_get : AxiosRequest -> completion AxiosResponse)
    (report : string) :
  (forall args, Paginated_report twitterApiKey axios_get args report ->
     (25000 < String.length report ->
        Paginated.run twitterApiKey axios_get args
        = Normal (substring0 25000 report
                  ++ LF ++ "... [Total output truncated due to length limit]"))
     /\ (String.length report <= 25000 ->
        Paginated.run twitterApiKey axios_get args = Normal report))
  /\ (forall args, Basic_report twitterApiKey axios_get args report ->
     (25000 < String.length report ->
        Basic.run twitterApiKey axios_get args
        = Normal (substring0 25000 report
                  ++ LF ++ "... [Total output truncated due to length limit]"))
     /\ (String.length report <= 25000 ->
        Basic.run twitterApiKey axios_get args = Normal report))
  /\ (25000 < String.length report ->
        String.length (substring0 25000 report) = 25000
        /\ exists rest, report = substring0 25000 report ++ rest).
Proof.
  split; [| split].
  - intros args (response & tweet & rest & Hget & Htweets & Hfmt).
    rewrite (Paginated_run_report _ _ _ _ _ _ _ Hget Htweets Hfmt).
    split; intros H; [rewrite cap_output_long | rewrite cap_output_short]; auto.
  - intros args (response & tweet & rest & Hget & Htweets & Hfmt).
    rewrite (Basic_run_report _ _ _ _ _ _ _ Hget Htweets Hfmt).
    split; intros H; [rewrite cap_output_long | rewrite cap_output_short]; auto.
  - intros H. split.
    + apply substring0_length. lia.
    + apply substring0_prefix.
Qed.

Lemma C3_report_capped_at_25000_witness :
  Paginated.run "KEY" (answers sample_body) sample_args = Normal sample_report
  /\ Paginated.run "KEY" (answers oversized_body) sample_args
     = Normal (substring0 25000 oversized_report
               ++ LF ++ "... [Total output truncated due to length limit]").
Proof.
  split.
  - destruct (C3_report_capped_at_25000 "KEY" (answers sample_body) sample_report)
      as [Hpaginated _].
    destruct (Hpaginated sample_args) as [_ Hshort].
    + do 3 eexists. split; [reflexivity | split; [reflexivity | vm_compute; reflexivity]].
    + apply Hshort. apply Nat.leb_le. vm_compute. reflexivity.
  - destruct (C3_report_capped_at_25000 "KEY" (answers oversized_body) oversized_report)
      as [Hpaginated _].
    destruct (Hpaginated sample_args) as [Hlong _].
    + exists (mkResponse 200 oversized_body), oversized_tweet, [].
      split; [reflexivity | split; [reflexivity |]].
      apply is_normal_report_of. vm_compute. reflexivity.
    + apply Hlong. apply Nat.ltb_lt. vm_compute. reflexivity.
Defined.

(** C3 fails on an empty page: both handlers return the report of an empty
    page from the branch of the empty page, which comes before the length
    safeguard.  For a query of 25,000 characters the report is returned
    whole, with more than 25,000 characters and without the truncation
    notice. *)
Lemma C3_counterexample_empty_page_not_capped :
  is_normal (Paginated.run "KEY" (answers (empty_body false ""))
               (Paginated.mkArgs oversized_query Latest None)) = true
  /\ is_normal (Basic.run "KEY" (answers (empty_body false ""))
                  (Basic.mkArgs oversized_query Latest)) = true
  /\ (report_of (Paginated.run "KEY" (answers (empty_body false ""))
                (Paginated.mkArgs oversized_query Latest None))
   =? no_tweets_found oversized_query ++ end_of_results_note) = true
  /\ (25000 <? String.length
                 (report_of (Paginated.run "KEY" (answers (empty_body false ""))
                               (Paginated.mkArgs oversized_query Latest None))))%nat = true
  /\ ends_with truncation_notice
       (report_of (Paginated.run "KEY" (answers (empty_body false ""))
                     (Paginated.mkArgs oversized_query Latest None))) = false
  /\ (report_of (Basic.run "KEY" (answers (empty_body false ""))
                   (Basic.mkArgs oversized_query Latest))
      =? no_tweets_found oversized_query) = true
  /\ (25000 <? String.length
                 (report_of (Basic.run "KEY" (answers (empty_body false ""))
                               (Basic.mkArgs oversized_query Latest))))%nat = true
  /\ ends_with truncation_notice
       (report_of (Basic.run "KEY" (answers (empty_body false ""))
                     (Basic.mkArgs oversized_query Latest))) = false.
Proof.
  split; [vm_compute; reflexivity |].
  split; [vm_compute; reflexivity |].
  split; [vm_compute; reflexivity |].
  split; [vm_compute; reflexivity |].
  split; [vm_compute; reflexivity |].
  split; [vm_compute; reflexivity |].
  split; [vm_compute; reflexivity |].
  vm_compute; reflexivity.
Qed.

(* ================================================================= *)
(** ** The shape check *)

(** C8 fails for a query with format specifiers.  The shape check logs
    through [console.error] with a format string that holds the query, the
    provider's message and the body being the arguments.  For the query
    [%s%d] the specifier [%d] applies [Number] to the body; for a body with
    a key named [toString] the conversion throws inside [try], and both
    handlers return the unexpected-error line, in which the provider's
    message ("Invalid query syntax", a string) does not occur.  For the
    query of [sample_args] the same body gives the line of the shape check
    with the message. *)
Theorem C8_shape_error_lost_to_format_specifier :
  bad_shape shadowing_body = Normal true
  /\ errorMessage shadowing_body = JSString "Invalid query syntax"
  /\ shape_check_log "%s%d" shadowing_body
     = Throw (TypeError "Cannot convert object to primitive value")
  /\ Paginated.run "KEY" (answers shadowing_body) (Paginated.mkArgs "%s%d" Latest None)
     = Normal "Error: An unexpected error occurred while searching tweets: Cannot convert object to primitive value"
  /\ Basic.run "KEY" (answers shadowing_body) (Basic.mkArgs "%s%d" Latest)
     = Normal "Error: An unexpected error occurred while searching tweets: Cannot convert object to primitive value"
  /\ contains "Invalid query syntax"
       (report_of (Paginated.run "KEY" (answers shadowing_body)
                     (Paginated.mkArgs "%s%d" Latest None))) = false
  /\ Paginated.run "KEY" (answers shadowing_body) sample_args
     = Normal "Error: Failed to fetch tweets. API Response: Invalid query syntax"
  /\ Basic.run "KEY" (answers shadowing_body) (Basic.mkArgs "from:openai" Latest)
     = Normal "Error: Failed to fetch tweets. API Response: Invalid query syntax".
Proof.
  repeat split; vm_compute; reflexivity.
Qed.

(* ================================================================= *)
(** ** Pagination notes *)

Lemma Paginated_empty_page_eq (args : Paginated.Args) (hasNextPage nextCursor : value)
    (cursor : string) :
  (ToBoolean hasNextPage && ToBoolean nextCursor = true -> ToString nextCursor = Normal cursor) ->
  Paginated.empty_page args hasNextPage nextCursor
  = Normal ((match truthy (Paginated.cursor args) with
             | Some _ => no_more_tweets (Paginated.query args)
             | None => no_tweets_found (Paginated.query args)
             end) ++ page_note hasNextPage nextCursor cursor).
Proof.
  intros Hc. unfold Paginated.empty_page, page_note.
  destruct (ToBoolean hasNextPage && ToBoolean nextCursor).
  - rewrite (Hc eq_refl). reflexivity.
  - reflexivity.
Qed.

Lemma Paginated_add_pagination_eq (hasNextPage nextCursor : value) (cursor output : string) :
  (ToBoolean hasNextPage && ToBoolean nextCursor = true -> ToString nextCursor = Normal cursor) ->
  Paginated.add_pagination hasNextPage nextCursor output
  = Normal (output ++ page_footer hasNextPage nextCursor cursor).
Proof.
  intros Hc. unfold Paginated.add_pagination, page_footer.
  destruct (ToBoolean hasNextPage && ToBoolean nextCursor).
  - rewrite (Hc eq_refl). reflexivity.
  - reflexivity.
Qed.

Lemma wordings_differ (query query' : string) : no_tweets_found query <> no_more_tweets query'.
Proof.
  unfold no_tweets_found, no_more_tweets. cbn [append]. discriminate.
Qed.

Lemma footers_differ (cursor : string) : more_results_footer cursor <> end_of_results_footer.
Proof.
  unfold more_results_footer, end_of_results_footer, LF. cbn [append]. discriminate.
Qed.

Lemma notes_differ (cursor : string) : more_results_note cursor <> end_of_results_note.
Proof.
  unfold more_results_note, end_of_results_note, LF. cbn [append]. discriminate.
Qed.

(** C6, as the sources have it. In the paginated handler, when the
    provider's [tweets] array is empty and [next_cursor], where the note
    prints it, converts to a string [next], [run] returns one of two
    distinct sentences followed by a note: "No tweets found matching the
    search query" when no cursor (or the empty string) was given, "No more
    tweets found on this page" when a non-empty cursor was given; the note
    carries the provider's next cursor when [has_next_page] and
    [next_cursor] are both truthy and says "End of results" otherwise.
    (The basic handler returns the first sentence alone.) *)
Theorem C6_paginated_empty_page_wording
    (twitterApiKey : string) (axios_get : AxiosRequest -> completion AxiosResponse)
    (args : Paginated.Args) (response : AxiosResponse) (next : string) :
  let hasNextPage := OptGet (data response) "has_next_page" in
  let nextCursor := OptGet (data response) "next_cursor" in
  axios_get (Paginated.request twitterApiKey args) = Normal response ->
  OptGet (data response) "tweets" = JSArray [] ->
  (ToBoolean hasNextPage && ToBoolean nextCursor = true -> ToString nextCursor = Normal next) ->
  (Paginated.cursor args = None \/ Paginated.cursor args = Some "" ->
     Paginated.run twitterApiKey axios_get args
     = Normal (no_tweets_found (Paginated.query args)
               ++ page_note hasNextPage nextCursor next))
  /\ (forall cursor, Paginated.cursor args = Some cursor -> cursor <> "" ->
     Paginated.run twitterApiKey axios_get args
     = Normal (no_more_tweets (Paginated.query args)
               ++ page_note hasNextPage nextCursor next))
  /\ no_tweets_found (Paginated.query args) <> no_more_tweets (Paginated.query args)
  /\ (ToBoolean hasNextPage && ToBoolean nextCursor = true ->
        page_note hasNextPage nextCursor next = more_results_note next)
  /\ (ToBoolean hasNextPage && ToBoolean nextCursor = false ->
        page_note hasNextPage nextCursor next = end_of_results_note)
  /\ more_results_note next <> end_of_results_note.
Proof.
  intros hasNextPage nextCursor Hget Htweets Hnext.
  pose proof (Paginated_run_empty twitterApiKey axios_get args response Hget Htweets) as Hrun.
  fold hasNextPage nextCursor in Hrun.
  rewrite (Paginated_empty_page_eq _ _ _ _ Hnext) in Hrun. cbn [try_catch] in Hrun.
  repeat split.
  - intros [Hc | Hc]; rewrite Hrun, Hc; reflexivity.
  - intros cursor Hc Hne. rewrite Hrun, Hc. cbn [truthy].
    now rewrite (ToBoolean_string _ Hne).
  - apply wordings_differ.
  - unfold page_note. now intros ->.
  - unfold page_note. now intros ->.
  - apply notes_differ.
Qed.

Lemma C6_paginated_empty_page_wording_witness :
  Paginated.run "KEY" (answers (empty_body false "")) sample_args
  = Normal (no_tweets_found (Paginated.query sample_args) ++ end_of_results_note)
  /\ Paginated.run "KEY" (answers (empty_body true "DAACCgACGdy"))
       (Paginated.mkArgs "#web3 since:2024-01-01" Top (Some "DAACCgACGdw"))
     = Normal (no_more_tweets "#web3 since:2024-01-01" ++ more_results_note "DAACCgACGdy").
Proof.
  split.
  - destruct (C6_paginated_empty_page_wording "KEY" (answers (empty_body false ""))
                sample_args (mkResponse 200 (empty_body false "")) ""
                eq_refl eq_refl (fun _ => eq_refl)) as [H _].
    apply H. left. reflexivity.
  - destruct (C6_paginated_empty_page_wording "KEY" (answers (empty_body true "DAACCgACGdy"))
                (Paginated.mkArgs "#web3 since:2024-01-01" Top (Some "DAACCgACGdw"))
                (mkResponse 200 (empty_body true "DAACCgACGdy")) "DAACCgACGdy"
                eq_refl eq_refl (fun _ => eq_refl)) as (_ & H & _).
    apply (H "DAACCgACGdw"); [reflexivity | discriminate].
Defined.

(** C6 fails in two places.  On an empty page the basic handler returns
    the sentence alone, with no note about further pages, whatever the
    provider says about them.  In the paginated handler a [next_cursor]
    that cannot be converted to a string (an object with a key named
    [toString]) makes the note throw inside [try]: [run] returns the
    unexpected-error line, with neither sentence and no note. *)
Lemma C6_counterexample_no_trailing_note :
  (Basic.run "KEY" (answers (empty_body true "DAACCgACGdy")) (Basic.mkArgs "openserv.ai" Latest)
   = Normal (no_tweets_found "openserv.ai")
   /\ contains "Note" (no_tweets_found "openserv.ai") = false
   /\ contains "DAACCgACGdy" (no_tweets_found "openserv.ai") = false
   /\ Basic.run "KEY" (answers (empty_body false "")) (Basic.mkArgs "openserv.ai" Latest)
      = Normal (no_tweets_found "openserv.ai"))
  /\ (Paginated.run "KEY" (answers unprintable_cursor_body) sample_args
      = Normal "Error: An unexpected error occurred while searching tweets: Cannot convert object to primitive value"
      /\ contains "No tweets found"
           (report_of (Paginated.run "KEY" (answers unprintable_cursor_body) sample_args)) = false
      /\ contains "Note"
           (report_of (Paginated.run "KEY" (answers unprintable_cursor_body) sample_args)) = false).
Proof.
  repeat split; vm_compute; reflexivity.
Qed.

(** C2, as the sources have it. In the paginated handler, for every answer
    of the provider with a [tweets] array: the report of a non-empty page
    that has at most 25,000 characters is returned ending in a pagination
    footer, and the report of an empty page ending in a pagination note.
    When [has_next_page] and [next_cursor] are both truthy (for the
    documented types: [true] and a non-empty string) the footer or note is
    the next-cursor one and contains the cursor; otherwise it is the
    end-of-results one.  The two forms are distinct, and exactly one is
    appended. *)
Theorem C2_paginated_footer
    (twitterApiKey : string) (axios_get : AxiosRequest -> completion AxiosResponse)
    (args : Paginated.Args) (response : AxiosResponse) (next : string) :
  let hasNextPage := OptGet (data response) "has_next_page" in
  let nextCursor := OptGet (data response) "next_cursor" in
  axios_get (Paginated.request twitterApiKey args) = Normal response ->
  (ToBoolean hasNextPage && ToBoolean nextCursor = true -> ToString nextCursor = Normal next) ->
  (forall tweet rest blocks,
      OptGet (data response) "tweets" = JSArray (tweet :: rest) ->
      forEach "tweetTextContent" (tweet :: rest) 0 (Paginated.header args) = Normal blocks ->
      String.length (blocks ++ page_footer hasNextPage nextCursor next) <= 25000 ->
      Paginated.run twitterApiKey axios_get args
      = Normal (blocks ++ page_footer hasNextPage nextCursor next)
      /\ ends_with (page_footer hasNextPage nextCursor next)
                   (blocks ++ page_footer hasNextPage nextCursor next) = true)
  /\ (OptGet (data response) "tweets" = JSArray [] ->
      exists sentence,
        Paginated.run twitterApiKey axios_get args
        = Normal (sentence ++ page_note hasNextPage nextCursor next)
        /\ ends_with (page_note hasNextPage nextCursor next)
                     (sentence ++ page_note hasNextPage nextCursor next) = true)
  /\ (ToBoolean hasNextPage && ToBoolean nextCursor = true ->
      page_footer hasNextPage nextCursor next = more_results_footer next
      /\ page_note hasNextPage nextCursor next = more_results_note next
      /\ contains next (more_results_footer next) = true
      /\ contains next (more_results_note next) = true)
  /\ (ToBoolean hasNextPage && ToBoolean nextCursor = false ->
      page_footer hasNextPage nextCursor next = end_of_results_footer
      /\ page_note hasNextPage nextCursor next = end_of_results_note)
  /\ (forall b c, ToBoolean (JSBool b) && ToBoolean (JSString c) = b && negb (c =? ""))
  /\ more_results_footer next <> end_of_results_footer
  /\ more_results_note next <> end_of_results_note.
Proof.
  intros hasNextPage nextCursor Hget Hnext.
  split; [| split; [| split; [| split; [| split; [| split]]]]].
  - intros tweet rest blocks Htweets Hblocks Hlen.
    split; [| apply ends_with_append].
    rewrite (Paginated_run_report twitterApiKey axios_get args response tweet rest
               (blocks ++ page_footer hasNextPage nextCursor next) Hget Htweets).
    + now rewrite cap_output_short.
    + unfold Paginated.format_output. rewrite Hblocks. cbn [bind].
      now apply Paginated_add_pagination_eq.
  - intros Htweets.
    exists (match truthy (Paginated.cursor args) with
            | Some _ => no_more_tweets (Paginated.query args)
            | None => no_tweets_found (Paginated.query args)
            end).
    split; [| apply ends_with_append].
    rewrite (Paginated_run_empty twitterApiKey axios_get args response Hget Htweets).
    fold hasNextPage nextCursor.
    now rewrite (Paginated_empty_page_eq _ _ _ _ Hnext).
  - intros Hb. unfold page_footer, page_note. rewrite Hb.
    repeat split.
    + unfold more_results_footer. rewrite <- append_assoc. apply contains_append.
    + unfold more_results_note. rewrite <- append_assoc. apply contains_append.
  - intros Hb. unfold page_footer, page_note. rewrite Hb. now split.
  - reflexivity.
  - apply footers_differ.
  - apply notes_differ.
Qed.

Lemma C2_paginated_footer_witness :
  Paginated.run "KEY" (answers continued_body) sample_args
  = Normal (report_of (forEach "tweetTextContent"
                         [ sample_tweet "1866332309399781537" "Hello" "openai" ] 0
                         (Paginated.header sample_args))
            ++ more_results_footer "DAACCgACGdy")
  /\ Paginated.run "KEY" (answers sample_body) sample_args
     = Normal (report_of (forEach "tweetTextContent"
                            [ sample_tweet "1866332309399781537" "Hello" "openai";
                              sample_tweet "1866332309399781000" "World" "openai" ] 0
                            (Paginated.header sample_args))
               ++ end_of_results_footer).
Proof.
  split.
  - destruct (C2_paginated_footer "KEY" (answers continued_body) sample_args
                (mkResponse 200 continued_body) "DAACCgACGdy"
                eq_refl (fun _ => eq_refl)) as [H _].
    eapply H.
    + reflexivity.
    + apply is_normal_report_of. vm_compute. reflexivity.
    + apply Nat.leb_le. vm_compute. reflexivity.
  - destruct (C2_paginated_footer "KEY" (answers sample_body) sample_args
                (mkResponse 200 sample_body) ""
                eq_refl (fun _ => eq_refl)) as [H _].
    eapply H.
    + reflexivity.
    + apply is_normal_report_of. vm_compute. reflexivity.
    + apply Nat.leb_le. vm_compute. reflexivity.
Defined.

(** C2 fails in two places.  The basic handler has no end-of-results
    footer: when the provider reports no further page its report ends with
    the last tweet block, and when it reports one the note does not carry
    the cursor.  In the paginated handler the length safeguard cuts the
    footer off an oversized report: the returned string holds neither the
    next cursor nor the end-of-results marker. *)
Lemma C2_counterexample_footer_absent :
  (is_normal (Basic.run "KEY" (answers sample_body) (Basic.mkArgs "openserv.ai" Latest)) = true
   /\ contains "End of results"
        (report_of (Basic.run "KEY" (answers sample_body) (Basic.mkArgs "openserv.ai" Latest)))
      = false
   /\ contains "Note"
        (report_of (Basic.run "KEY" (answers sample_body) (Basic.mkArgs "openserv.ai" Latest)))
      = false)
  /\ (is_normal (Basic.run "KEY" (answers continued_body) (Basic.mkArgs "openserv.ai" Latest)) = true
      /\ contains "DAACCgACGdy"
           (report_of (Basic.run "KEY" (answers continued_body) (Basic.mkArgs "openserv.ai" Latest)))
         = false)
  /\ (is_normal (Paginated.run "KEY" (answers oversized_body) sample_args) = true
      /\ contains "DAACCgACGdy"
           (report_of (Paginated.run "KEY" (answers oversized_body) sample_args)) = false
      /\ contains "End of results"
           (report_of (Paginated.run "KEY" (answers oversized_body) sample_args)) = false
      /\ ends_with truncation_notice
           (report_of (Paginated.run "KEY" (answers oversized_body) sample_args)) = true).
Proof.
  repeat split; vm_compute; reflexivity.
Qed.

(* ================================================================= *)
(** ** The [catch] clause *)

Lemma selects_provider_message_holds (e : exn) : selects_provider_message e.
Proof.
  unfold selects_provider_message, apiMessage. repeat split.
  - intros Ht. rewrite (or_else_truthy (or_else _ _)) by now rewrite or_else_truthy.
    now rewrite or_else_truthy.
  - intros Hf Ht. rewrite (or_else_falsy _ _ Hf). now rewrite or_else_truthy.
  - intros Hf Hf'. now rewrite (or_else_falsy _ _ Hf), (or_else_falsy _ _ Hf').
  - intros m ->. reflexivity.
Qed.

(** The two [catch] clauses differ in the bad-request line only; the
    dispatch is proved once, for a clause given by its unfolding. *)
Ltac dispatch_status :=
  match goal with
  | |- status_dispatch _ _ ?e =>
      destruct e as [message [[s d] |] | message]; cbn [status_dispatch status];
      [ repeat split | reflexivity | reflexivity ]
  end.

Lemma Paginated_catch_dispatch (args : Paginated.Args) (e : exn) :
  status_dispatch (Paginated.catch_block args e) (Paginated_bad_request args) e.
Proof.
  dispatch_status; unfold Paginated.catch_block;
    cbn [isAxiosError response_status error_response status strict_eq_number].
  - intros [-> | ->]; reflexivity.
  - intros -> m Hm. cbn [Z.eqb Pos.eqb orb]. rewrite Hm. cbn [bind].
    reflexivity.
  - intros ->. reflexivity.
  - intros ->. reflexivity.
  - intros H401 H403 H400 H404 H429 H0 m Hm.
    apply Z.eqb_neq in H401, H403, H400, H404, H429, H0.
    rewrite H401, H403, H400, H404, H429. cbn [orb].
    unfold or_else. cbn [ToBoolean]. rewrite H0. cbn [negb ToString bind].
    now rewrite Hm.
Qed.

Lemma Basic_catch_dispatch (args : Basic.Args) (e : exn) :
  status_dispatch (Basic.catch_block args e) (Basic_bad_request args) e.
Proof.
  dispatch_status; unfold Basic.catch_block;
    cbn [isAxiosError response_status error_response status strict_eq_number].
  - intros [-> | ->]; reflexivity.
  - intros -> m Hm. cbn [Z.eqb Pos.eqb orb]. rewrite Hm. cbn [bind].
    reflexivity.
  - intros ->. reflexivity.
  - intros ->. reflexivity.
  - intros H401 H403 H400 H404 H429 H0 m Hm.
    apply Z.eqb_neq in H401, H403, H400, H404, H429, H0.
    rewrite H401, H403, H400, H404, H429. cbn [orb].
    unfold or_else. cbn [ToBoolean]. rewrite H0. cbn [negb ToString bind].
    now rewrite Hm.
Qed.

(** C4, as the sources have it. When [axios.get] fails, both handlers choose
    the returned line as follows.  An axios error with a response is
    dispatched on the status alone: 401 and 403 give the authentication line
    naming TWITTER_API_IO_KEY; 400 gives the bad-request line, which in the
    paginated handler blames the cursor as well exactly when a non-empty
    cursor was given; 404 gives the endpoint line; 429 the rate-limit line;
    any other status (0 apart) the generic line with the status and the
    provider's message ([msg] when truthy, else [message] when truthy, else
    a fallback).  The bad-request line and the generic line embed the
    provider's message converted to a string [m], and are returned
    provided that conversion succeeds.  An axios error without a response
    (no answer from the provider) gives the generic line with status N/A
    and the fallback message.  Any other exception gives the
    unexpected-error line with the exception's message. *)
Theorem C4_failures_dispatched_on_status
    (twitterApiKey : string) (axios_get : AxiosRequest -> completion AxiosResponse) :
  (forall args e,
      axios_get (Paginated.request twitterApiKey args) = Throw e ->
      status_dispatch (Paginated.run twitterApiKey axios_get args)
                      (Paginated_bad_request args) e
      /\ selects_provider_message e)
  /\ (forall args e,
      axios_get (Basic.request twitterApiKey args) = Throw e ->
      status_dispatch (Basic.run twitterApiKey axios_get args)
                      (Basic_bad_request args) e
      /\ selects_provider_message e)
  /\ (forall args cursor m, Paginated.cursor args = Some cursor -> cursor <> "" ->
        Paginated_bad_request args m
        = "Error: Bad request. The search query " ++ DQ ++ Paginated.query args ++ DQ
          ++ " or the provided cursor might be invalid."
          ++ " Please check the query syntax and cursor value. (Status: 400, Message: "
          ++ m ++ ")")
  /\ (forall args m, Paginated.cursor args = None \/ Paginated.cursor args = Some "" ->
        Paginated_bad_request args m
        = "Error: Bad request. The search query " ++ DQ ++ Paginated.query args ++ DQ
          ++ " might be invalid or improperly formatted."
          ++ " Please check the query syntax and cursor value. (Status: 400, Message: "
          ++ m ++ ")").
Proof.
  split; [| split; [| split]].
  - intros args e Hget. rewrite (Paginated_run_rejected _ _ _ _ Hget).
    split; [apply Paginated_catch_dispatch | apply selects_provider_message_holds].
  - intros args e Hget. rewrite (Basic_run_rejected _ _ _ _ Hget).
    split; [apply Basic_catch_dispatch | apply selects_provider_message_holds].
  - intros args cursor m Hc Hne. unfold Paginated_bad_request. rewrite Hc.
    cbn [truthy]. rewrite (ToBoolean_string _ Hne). now rewrite !append_assoc.
  - intros args m [Hc | Hc]; unfold Paginated_bad_request; rewrite Hc;
      cbn [truthy ToBoolean String.eqb negb]; now rewrite !append_assoc.
Qed.

Lemma C4_failures_dispatched_on_status_witness :
  Paginated.run "KEY" (fails (http_failure 400 (JSObject [("msg", JSString "Invalid cursor")])))
    (Paginated.mkArgs "from:openai" Latest (Some "DAACCgACGdy"))
  = Normal (Paginated_bad_request (Paginated.mkArgs "from:openai" Latest (Some "DAACCgACGdy"))
              "Invalid cursor")
  /\ Basic.run "KEY" (fails (http_failure 503 JSNull)) (Basic.mkArgs "from:openai" Latest)
     = Normal "Error: An API error occurred. Status: 503, Message: No specific message from API.".
Proof.
  split.
  - destruct (C4_failures_dispatched_on_status "KEY"
                (fails (http_failure 400 (JSObject [("msg", JSString "Invalid cursor")]))))
      as [H _].
    destruct (H (Paginated.mkArgs "from:openai" Latest (Some "DAACCgACGdy"))
                (http_failure 400 (JSObject [("msg", JSString "Invalid cursor")])) eq_refl)
      as [(_ & H400 & _) _].
    apply H400; reflexivity.
  - destruct (C4_failures_dispatched_on_status "KEY" (fails (http_failure 503 JSNull)))
      as (_ & H & _).
    destruct (H (Basic.mkArgs "from:openai" Latest) (http_failure 503 JSNull) eq_refl)
      as [(_ & _ & _ & _ & Hother) _].
    apply Hother; try discriminate. reflexivity.
Defined.

(** C4 fails in two places.  On a connection-level failure axios rejects
    with an [AxiosError] that has no [response], the [catch] clause takes
    the axios branch ("Handle HTTP/Network Errors"), and the returned line
    is the generic API-error line with status N/A, not the unexpected-error
    line, and without the failure's description.  On a status 400 whose
    body has a [msg] that cannot be converted to a string, the bad-request
    line throws while it is built and [run] returns no line at all. *)
Lemma C4_counterexample_connection_failure :
  (isAxiosError connection_refused = true
   /\ error_response connection_refused = None
   /\ Paginated.run "KEY" (fails connection_refused) sample_args
      = Normal "Error: An API error occurred. Status: N/A, Message: No specific message from API."
   /\ Paginated.run "KEY" (fails connection_refused) sample_args
      <> Normal ("Error: An unexpected error occurred while searching tweets: "
                 ++ error_message connection_refused)
   /\ contains (error_message connection_refused)
        (report_of (Paginated.run "KEY" (fails connection_refused) sample_args)) = false
   /\ Basic.run "KEY" (fails connection_refused) (Basic.mkArgs "from:openai" Latest)
      = Normal "Error: An API error occurred. Status: N/A, Message: No specific message from API.")
  /\ (Paginated.run "KEY" (fails (http_failure 400 unprintable_body)) sample_args
      = Throw (TypeError "Cannot convert object to primitive value")
      /\ Basic.run "KEY" (fails (http_failure 400 unprintable_body))
           (Basic.mkArgs "from:openai" Latest)
         = Throw (TypeError "Cannot convert object to primitive value")).
Proof.
  repeat split; try (vm_compute; reflexivity).
  vm_compute. discriminate.
Qed.

(* ================================================================= *)
(** ** Which completions of [run] are throws *)

Lemma throws_no_axios_error_bind {A B : Type} (c : completion A) (k : A -> completion B) :
  throws_no_axios_error c ->
  (forall a, throws_no_axios_error (k a)) ->
  throws_no_axios_error (bind c k).
Proof.
  intros Hc Hk e. destruct c as [a | e0]; cbn [bind].
  - exact (Hk a e).
  - intros H. apply Hc. f_equal.
    exact (f_equal (fun c => match c with Throw x => x | Normal _ => e end) H).
Qed.

Lemma throws_no_axios_error_Normal {A : Type} (a : A) : throws_no_axios_error (Normal a).
Proof.
  intros e H. discriminate H.
Qed.

Lemma throws_no_axios_error_TypeError {A : Type} (m : string) :
  throws_no_axios_error (@Throw A (TypeError m)).
Proof.
  intros e H. apply (f_equal (fun c => match c with Throw e => isAxiosError e | Normal _ => false end)) in H.
  now rewrite <- H.
Qed.

Lemma ToString_throws (v : value) : throws_no_axios_error (ToString v).
Proof.
  induction v as [| |b|n|s|elements IH|fields] using value_elements_ind.
  - apply throws_no_axios_error_Normal.
  - apply throws_no_axios_error_Normal.
  - destruct b; apply throws_no_axios_error_Normal.
  - apply throws_no_axios_error_Normal.
  - apply throws_no_axios_error_Normal.
  - cbn [ToString]. induction IH as [| x rest Hx Hrest IHrest].
    + apply throws_no_axios_error_Normal.
    + apply throws_no_axios_error_bind.
      * destruct x; try apply throws_no_axios_error_Normal; exact Hx.
      * intros s. destruct rest as [| y rest'].
        -- apply throws_no_axios_error_Normal.
        -- apply throws_no_axios_error_bind; [exact IHrest |].
           intros r. apply throws_no_axios_error_Normal.
  - cbn [ToString]. destruct (has_own "toString" fields).
    + apply throws_no_axios_error_TypeError.
    + apply throws_no_axios_error_Normal.
Qed.

Lemma Get_throws (v : value) (k : string) : throws_no_axios_error (Get v k).
Proof.
  destruct v; cbn [Get];
    first [apply throws_no_axios_error_Normal | apply throws_no_axios_error_TypeError].
Qed.

Lemma truncate_text_throws (callee : string) (v : value) :
  throws_no_axios_error (truncate_text callee v).
Proof.
  destruct v; cbn [truncate_text];
    first [apply throws_no_axios_error_Normal | apply throws_no_axios_error_TypeError].
Qed.

Lemma string_pair_ind (P : string -> Prop) :
  P "" ->
  (forall c, P (String c "")) ->
  (forall c c' s, P s -> P (String c' s) -> P (String c (String c' s))) ->
  forall s, P s.
Proof.
  intros Hnil Hone Hstep s.
  assert (H : P s /\ forall c, P (String c s)).
  { induction s as [| c' s [IH IH']].
    - split; [exact Hnil | exact Hone].
    - split; [apply IH' |]. intros c. apply Hstep; [exact IH | apply IH']. }
  apply H.
Qed.

(** [console.error] throws what a conversion of one of its arguments
    throws, and nothing else. *)
Lemma format_throws_conversion (first : string) (args : list value) (e : exn) :
  format first args = Throw e ->
  exists arg, In arg args /\ ToString arg = Throw e.
Proof.
  revert args. induction first as [| c | c c' rest IH IH'] using string_pair_ind;
    intros args H.
  - discriminate H.
  - cbn [format] in H. destruct (c =? "%")%char; discriminate H.
  - cbn [format] in H. fold (format rest) in H.
    destruct (c =? "%")%char.
    + destruct args as [| arg args']; [discriminate H |].
      destruct (is_placeholder c').
      * destruct (is_numeric c').
        -- destruct (ToString arg) as [s |e'] eqn:E; cbn [bind] in H.
           ++ destruct (IH _ H) as (arg' & Hin & Harg'). exists arg'. split; [now right | exact Harg'].
           ++ exists arg. split; [now left |]. inversion H. subst. exact E.
        -- destruct (IH _ H) as (arg' & Hin & Harg'). exists arg'. split; [now right | exact Harg'].
      * now apply IH.
    + now apply IH'.
Qed.

Lemma console_error_throws (first : string) (args : list value) :
  throws_no_axios_error (console_error first args).
Proof.
  intros e H. destruct (format_throws_conversion _ _ _ H) as (arg & _ & Harg).
  exact (ToString_throws _ _ Harg).
Qed.

Ltac no_axios_error :=
  repeat first
    [ apply throws_no_axios_error_Normal
    | apply throws_no_axios_error_TypeError
    | apply ToString_throws
    | apply Get_throws
    | apply truncate_text_throws
    | apply console_error_throws
    | apply throws_no_axios_error_bind; [| intro] ].

Lemma forEach_throws (callee : string) (tweetsArray : list value) (index : nat)
    (output : string) :
  throws_no_axios_error (forEach callee tweetsArray index output).
Proof.
  revert index output.
  induction tweetsArray as [| tweet rest IH]; intros index output; cbn [forEach].
  - no_axios_error.
  - apply throws_no_axios_error_bind; [| intros output'; apply IH].
    unfold forEach_callback. no_axios_error.
Qed.

Lemma Paginated_try_block_throws (twitterApiKey : string)
    (axios_get : AxiosRequest -> completion AxiosResponse)
    (args : Paginated.Args) (response : AxiosResponse) :
  axios_get (Paginated.request twitterApiKey args) = Normal response ->
  throws_no_axios_error (Paginated.try_block twitterApiKey axios_get args).
Proof.
  intros Hget. unfold Paginated.try_block. rewrite Hget. cbn [bind].
  apply throws_no_axios_error_bind.
  - unfold bad_shape. destruct (negb (ToBoolean (data response))); no_axios_error.
  - intros [|]; [no_axios_error |].
    no_axios_error.
    destruct a as [| | | | |[|tweet rest]|]; try apply throws_no_axios_error_TypeError.
    + unfold Paginated.empty_page.
      destruct (ToBoolean a0 && ToBoolean a1); no_axios_error.
    + apply throws_no_axios_error_bind; [| intro; no_axios_error].
      unfold Paginated.format_output.
      apply throws_no_axios_error_bind; [apply forEach_throws |].
      intros output. unfold Paginated.add_pagination.
      destruct (ToBoolean a0 && ToBoolean a1); no_axios_error.
Qed.

(** Where [run] does return: whenever the provider answered with a body (of
    any shape), and whenever the failure is not an axios error. *)
Lemma Paginated_run_returns_on_answer (twitterApiKey : string)
    (axios_get : AxiosRequest -> completion AxiosResponse)
    (args : Paginated.Args) (response : AxiosResponse) :
  axios_get (Paginated.request twitterApiKey args) = Normal response ->
  exists result, Paginated.run twitterApiKey axios_get args = Normal result.
Proof.
  intros Hget.
  pose proof (Paginated_try_block_throws _ _ _ _ Hget) as Hthrows.
  unfold Paginated.run.
  destruct (Paginated.try_block twitterApiKey axios_get args) as [result | e]; cbn [try_catch].
  - now exists result.
  - unfold Paginated.catch_block. rewrite (Hthrows e eq_refl). now eexists.
Qed.

(** ... and whenever the failure has one of the statuses with a fixed line,
    or a provider message that converts to a string. *)
Lemma Paginated_run_returns_on_failure (twitterApiKey : string)
    (axios_get : AxiosRequest -> completion AxiosResponse)
    (args : Paginated.Args) (e : exn) :
  axios_get (Paginated.request twitterApiKey args) = Throw e ->
  is_normal (ToString (apiMessage e)) = true ->
  exists result, Paginated.run twitterApiKey axios_get args = Normal result.
Proof.
  intros Hget Hm. rewrite (Paginated_run_rejected _ _ _ _ Hget).
  destruct (ToString (apiMessage e)) as [m |] eqn:Em; [| discriminate Hm].
  unfold Paginated.catch_block. rewrite Em.
  destruct (isAxiosError e); [| now eexists].
  unfold response_status.
  destruct (error_response e) as [[n d] |]; cbn [strict_eq_number orb status];
    [| cbn; now eexists].
  destruct (n =? 401)%Z, (n =? 403)%Z, (n =? 400)%Z, (n =? 404)%Z, (n =? 429)%Z;
    cbn [orb bind ToString]; try now eexists.
  unfold or_else. destruct (ToBoolean (JSNumber n)); cbn [bind ToString]; now eexists.
Qed.

(** C1, at the input where it fails. The provider answers 500 with the JSON
    body [{"msg": {"toString": 1}}]: axios rejects, the [catch] clause takes
    the generic branch and interpolates [apiMessage] into its template
    literal; the conversion of that object to a string throws a
    [TypeError] inside the [catch] clause, and the promise returned by
    [run] is rejected instead of fulfilled with a string. *)
Theorem C1_run_rejects_when_message_is_unprintable :
  Paginated.run "KEY" (fails (http_failure 500 unprintable_body)) sample_args
  = Throw (TypeError "Cannot convert object to primitive value")
  /\ Paginated.run "KEY" (fails (http_failure 400 unprintable_body)) sample_args
     = Throw (TypeError "Cannot convert object to primitive value")
  /\ Basic.run "KEY" (fails (http_failure 500 unprintable_body))
       (Basic.mkArgs "openserv.ai" Latest)
     = Throw (TypeError "Cannot convert object to primitive value").
Proof.
  repeat split.
Qed.

(* ================================================================= *)
(** ** Absent fields of a tweet *)

(** The fallbacks the callback does apply: a falsy count prints as 0, a
    falsy or missing author name as "Unknown User", a falsy text as the
    empty string. *)
Lemma forEach_callback_fallbacks (callee : string) (fields : list (string * value)) :
  (forall k, ToBoolean (lookup k fields) = false ->
     ToString (or_else (lookup k fields) (JSNumber 0)) = Normal "0")
  /\ (ToBoolean (OptGet (lookup "author" fields) "userName") = false ->
      ToString (or_else (OptGet (lookup "author" fields) "userName") (JSString "Unknown User"))
      = Normal "Unknown User")
  /\ (ToBoolean (lookup "text" fields) = false ->
      truncate_text callee (or_else (lookup "text" fields) (JSString "")) = Normal "").
Proof.
  repeat split.
  - intros k H. now rewrite (or_else_falsy _ _ H).
  - intros H. now rewrite (or_else_falsy _ _ H).
  - intros H. now rewrite (or_else_falsy _ _ H).
Qed.

(** C9, at the input where it fails. The provider returns a tweet with an
    [id] and no other field (or with [null] in the other fields).  The
    counts print as 0, the author as "Unknown User" and the text as the
    empty string, but [createdAt] and [url] are interpolated as they are:
    the block reads "**Created:** undefined" and "**Link:** undefined"
    (or "null"). *)
Theorem C9_absent_createdAt_and_url_print_undefined :
  Paginated.run "KEY" (answers (page_of bare_tweet)) sample_args
  = Normal (Paginated.header sample_args
            ++ tweet_block 0 "Unknown User" "1866332309399781537" ""
                 "undefined" "undefined" "0" "0" "0" "0"
            ++ end_of_results_footer)
  /\ Paginated.run "KEY" (answers (page_of null_tweet)) sample_args
     = Normal (Paginated.header sample_args
               ++ tweet_block 0 "Unknown User" "1866332309399781537" ""
                    "null" "null" "0" "0" "0" "0"
               ++ end_of_results_footer)
  /\ contains ("   **Created:** undefined" ++ LF ++ "   **Link:** undefined" ++ LF)
       (report_of (Paginated.run "KEY" (answers (page_of bare_tweet)) sample_args)) = true
  /\ contains ("   **Created:** undefined" ++ LF ++ "   **Link:** undefined" ++ LF)
       (report_of (Basic.run "KEY" (answers (page_of bare_tweet))
                     (Basic.mkArgs "openserv.ai" Latest))) = true.
Proof.
  repeat split; vm_compute; reflexivity.
Qed.

(* ================================================================= *)
(** ** Exactly when [run] rejects *)

Lemma ToString_array_cons (x : value) (rest : list value) :
  ToString (JSArray (x :: rest))
  = (s <- match x with
          | JSUndefined | JSNull => Normal ""
          | _ => ToString x
          end ;;
     match rest with
     | [] => Normal s
     | _ :: _ => r <- ToString (JSArray rest) ;; Normal (s ++ "," ++ r)
     end).
Proof.
  reflexivity.
Qed.

Lemma ToString_unprintable (v : value) :
  if unprintable v then ToString v = Throw cannot_convert
  else is_normal (ToString v) = true.
Proof.
  induction v as [| |b|n|s|elements IH|fields] using value_elements_ind;
    try reflexivity.
  - now destruct b.
  - induction IH as [| x rest Hx Hrest IHrest]; [reflexivity |].
    rewrite ToString_array_cons.
    change (unprintable (JSArray (x :: rest)))
      with (unprintable x || unprintable (JSArray rest)).
    destruct (unprintable x).
    + cbn [orb]. destruct x; try discriminate Hx; now rewrite Hx.
    + cbn [orb].
      assert (Hs : exists s, match x with
                             | JSUndefined | JSNull => Normal ""
                             | _ => ToString x
                             end = Normal s).
      { destruct x; try (now eexists);
          (destruct (ToString _) as [s |] eqn:E; [now exists s | discriminate Hx]). }
      destruct Hs as [s ->]. cbn [bind].
      destruct rest as [| y rest']; [reflexivity |].
      destruct (unprintable (JSArray (y :: rest'))).
      * now rewrite IHrest.
      * destruct (ToString (JSArray (y :: rest'))); [reflexivity | discriminate IHrest].
  - cbn [unprintable ToString]. now destruct (has_own "toString" fields).
Qed.

Lemma ToString_throws_iff (v : value) (e : exn) :
  ToString v = Throw e <-> e = cannot_convert /\ unprintable v = true.
Proof.
  pose proof (ToString_unprintable v) as H.
  destruct (unprintable v).
  - rewrite H. split.
    + intros E. split; [| reflexivity].
      exact (f_equal (fun c => match c with Throw x => x | Normal _ => e end) (eq_sym E)).
    + now intros [-> _].
  - split.
    + intros E. rewrite E in H. discriminate H.
    + intros [_ E]. discriminate E.
Qed.

(** The [catch] clauses throw exactly when they interpolate a message that
    does not convert. *)
Ltac never_thrown :=
  split; [intros H; discriminate H | intros [H _]; discriminate H].

Ltac thrown_by_message :=
  match goal with
  | |- context [bind (ToString ?m) _] =>
      destruct (ToString m) as [s |] eqn:E; cbn [bind];
      [ split; [intros H; discriminate H | intros [_ H]; discriminate H]
      | split; [intros H; split; [reflexivity | exact H] | intros [_ H]; exact H] ]
  end.

Ltac catch_block_throws e :=
  unfold interpolates_message, response_status;
  destruct e as [message [[n d] |] | message];
  cbn [isAxiosError error_response status strict_eq_number andb negb];
  [ destruct (Z.eqb_spec n 401) as [-> | H401]; [cbn; never_thrown |];
    destruct (Z.eqb_spec n 403) as [-> | H403]; [cbn; never_thrown |];
    destruct (Z.eqb_spec n 400) as [-> | H400];
      [cbn [Z.eqb Pos.eqb orb andb negb]; thrown_by_message |];
    destruct (Z.eqb_spec n 404) as [-> | H404]; [cbn; never_thrown |];
    destruct (Z.eqb_spec n 429) as [-> | H429]; [cbn; never_thrown |];
    cbn [orb andb negb]; unfold or_else;
    destruct (ToBoolean (JSNumber n)); cbn [bind ToString]; thrown_by_message
  | cbn [orb bind ToString or_else ToBoolean]; thrown_by_message
  | never_thrown ].

Lemma Paginated_catch_block_throws (args : Paginated.Args) (err e : exn) :
  Paginated.catch_block args err = Throw e
  <-> interpolates_message err = true /\ ToString (apiMessage err) = Throw e.
Proof.
  unfold Paginated.catch_block. catch_block_throws err.
Qed.

Lemma Basic_catch_block_throws (args : Basic.Args) (err e : exn) :
  Basic.catch_block args err = Throw e
  <-> interpolates_message err = true /\ ToString (apiMessage err) = Throw e.
Proof.
  unfold Basic.catch_block. catch_block_throws err.
Qed.

Lemma Basic_try_block_throws (twitterApiKey : string)
    (axios_get : AxiosRequest -> completion AxiosResponse)
    (args : Basic.Args) (response : AxiosResponse) :
  axios_get (Basic.request twitterApiKey args) = Normal response ->
  throws_no_axios_error (Basic.try_block twitterApiKey axios_get args).
Proof.
  intros Hget. unfold Basic.try_block. rewrite Hget. cbn [bind].
  apply throws_no_axios_error_bind.
  - unfold bad_shape. destruct (negb (ToBoolean (data response))); no_axios_error.
  - intros [|]; [no_axios_error |].
    no_axios_error.
    destruct a as [| | | | |[|tweet rest]|]; try apply throws_no_axios_error_TypeError.
    + no_axios_error.
    + apply throws_no_axios_error_bind; [| intro; no_axios_error].
      unfold Basic.format_output.
      apply throws_no_axios_error_bind; [apply forEach_throws |].
      intros output. unfold Basic.add_pagination.
      apply throws_no_axios_error_bind; [apply Get_throws | intros h].
      apply throws_no_axios_error_bind; [apply Get_throws | intros c].
      destruct (ToBoolean h && ToBoolean c); no_axios_error.
Qed.

Lemma Basic_run_returns_on_answer (twitterApiKey : string)
    (axios_get : AxiosRequest -> completion AxiosResponse)
    (args : Basic.Args) (response : AxiosResponse) :
  axios_get (Basic.request twitterApiKey args) = Normal response ->
  exists result, Basic.run twitterApiKey axios_get args = Normal result.
Proof.
  intros Hget.
  pose proof (Basic_try_block_throws _ _ _ _ Hget) as Hthrows.
  unfold Basic.run.
  destruct (Basic.try_block twitterApiKey axios_get args) as [result | e]; cbn [try_catch].
  - now exists result.
  - unfold Basic.catch_block. rewrite (Hthrows e eq_refl). now eexists.
Qed.

(** The promise of the paginated [run] is rejected in one situation only:
    [axios.get] failed with an axios error whose status is none of 401,
    403, 404, 429, and the provider's message ([msg], else [message]) is an
    object with an own [toString] key or an array holding one.  The
    rejection is then the [TypeError] of the conversion.  In every other
    situation [run] fulfils its promise with a string. *)
Theorem Paginated_run_rejects_iff
    (twitterApiKey : string) (axios_get : AxiosRequest -> completion AxiosResponse)
    (args : Paginated.Args) (e : exn) :
  Paginated.run twitterApiKey axios_get args = Throw e
  <-> e = TypeError "Cannot convert object to primitive value"
      /\ exists err,
           axios_get (Paginated.request twitterApiKey args) = Throw err
           /\ interpolates_message err = true
           /\ unprintable (apiMessage err) = true.
Proof.
  split.
  - intros Hrun.
    destruct (axios_get (Paginated.request twitterApiKey args)) as [response | err] eqn:Hget.
    + destruct (Paginated_run_returns_on_answer _ _ _ _ Hget) as [result Hresult].
      rewrite Hresult in Hrun. discriminate Hrun.
    + rewrite (Paginated_run_rejected _ _ _ _ Hget) in Hrun.
      apply Paginated_catch_block_throws in Hrun as [Hi Hm].
      apply ToString_throws_iff in Hm as [-> Hu].
      split; [reflexivity |]. now exists err.
  - intros [-> (err & Hget & Hi & Hu)].
    rewrite (Paginated_run_rejected _ _ _ _ Hget).
    apply Paginated_catch_block_throws. split; [exact Hi |].
    now apply ToString_throws_iff.
Qed.

Lemma Paginated_run_rejects_iff_witness :
  Paginated.run "KEY"
    (fails (http_failure 502
              (JSObject [("message", JSArray [JSNumber 1; JSObject [("toString", JSNull)]])])))
    sample_args
  = Throw (TypeError "Cannot convert object to primitive value").
Proof.
  apply (Paginated_run_rejects_iff "KEY"). split; [reflexivity |].
  eexists. split; [reflexivity |]. split; reflexivity.
Defined.

(** The same for the basic handler of [src/index.ts]. *)
Theorem Basic_run_rejects_iff
    (twitterApiKey : string) (axios_get : AxiosRequest -> completion AxiosResponse)
    (args : Basic.Args) (e : exn) :
  Basic.run twitterApiKey axios_get args = Throw e
  <-> e = TypeError "Cannot convert object to primitive value"
      /\ exists err,
           axios_get (Basic.request twitterApiKey args) = Throw err
           /\ interpolates_message err = true
           /\ unprintable (apiMessage err) = true.
Proof.
  split.
  - intros Hrun.
    destruct (axios_get (Basic.request twitterApiKey args)) as [response | err] eqn:Hget.
    + destruct (Basic_run_returns_on_answer _ _ _ _ Hget) as [result Hresult].
      rewrite Hresult in Hrun. discriminate Hrun.
    + rewrite (Basic_run_rejected _ _ _ _ Hget) in Hrun.
      apply Basic_catch_block_throws in Hrun as [Hi Hm].
      apply ToString_throws_iff in Hm as [-> Hu].
      split; [reflexivity |]. now exists err.
  - intros [-> (err & Hget & Hi & Hu)].
    rewrite (Basic_run_rejected _ _ _ _ Hget).
    apply Basic_catch_block_throws. split; [exact Hi |].
    now apply ToString_throws_iff.
Qed.

Lemma Basic_run_rejects_iff_witness :
  Basic.run "KEY" (fails (http_failure 400 unprintable_body)) (Basic.mkArgs "openserv.ai" Top)
  = Throw (TypeError "Cannot convert object to primitive value").
Proof.
  apply (Basic_run_rejects_iff "KEY"). split; [reflexivity |].
  eexists. split; [reflexivity |]. split; reflexivity.
Defined.

(* ================================================================= *)
(** ** The blocks of a report *)

Lemma forEach_callback_nullish (callee : string) (tweet : value) (index : nat)
    (output : string) :
  nullish tweet = true ->
  forEach_callback callee tweet index output
  = Throw (TypeError ("Cannot read properties of "
                      ++ match tweet with JSNull => "null" | _ => "undefined" end
                      ++ " (reading 'author')")).
Proof.
  destruct tweet; intros H; try discriminate H; reflexivity.
Qed.

Lemma forEach_callback_fields (callee : string) (tweet : value) (index : nat)
    (output : string) :
  nullish tweet = false ->
  forEach_callback callee tweet index output
  = forEach_callback callee (JSObject (fields_of tweet)) index output.
Proof.
  destruct tweet; intros H; try discriminate H; reflexivity.
Qed.

Lemma truncate_text_callee (callee callee' : string) (v : value) (t : string) :
  truncate_text callee v = Normal t -> truncate_text callee' v = Normal t.
Proof.
  destruct v; intros H; try discriminate H; exact H.
Qed.

Lemma forEach_callback_throws (callee : string) (tweet : value) (index : nat)
    (output : string) :
  throws_no_axios_error (forEach_callback callee tweet index output).
Proof.
  unfold forEach_callback. no_axios_error.
Qed.

(** A callback that returns has appended one block, which depends neither
    on the output so far nor on the handler. *)
Lemma forEach_callback_block (callee : string) (tweet : value) (index : nat)
    (output output' : string) :
  forEach_callback callee tweet index output = Normal output' ->
  exists block,
    output' = output ++ block
    /\ prefix (string_of_nat (index + 1) ++ ". **Author:** @") block = true
    /\ forall callee' output2,
         forEach_callback callee' tweet index output2 = Normal (output2 ++ block).
Proof.
  intros H.
  destruct (nullish tweet) eqn:Hn.
  - rewrite (forEach_callback_nullish _ _ _ _ Hn) in H. discriminate H.
  - rewrite (forEach_callback_fields _ _ _ _ Hn) in H.
    destruct (forEach_callback_inv _ _ _ _ _ H)
      as (a & id & t & c & u & l & r & p & v & Ha & Hid & Ht & Hc & Hu & Hl & Hr & Hp & Hv & ->).
    exists (tweet_block index a id t c u l r p v). split; [reflexivity |]. split.
    + unfold tweet_block. rewrite !append_assoc.
      rewrite <- (append_assoc (string_of_nat (index + 1)) ". **Author:** @").
      apply prefix_append.
    + intros callee' output2. rewrite (forEach_callback_fields _ _ _ _ Hn).
      apply forEach_callback_returns; auto.
      now apply (truncate_text_callee callee).
Qed.

Lemma forEach_app (callee : string) (pre post : list value) (index : nat)
    (output : string) :
  forEach callee (pre ++ post) index output
  = (output' <- forEach callee pre index output ;;
     forEach callee post (index + length pre) output').
Proof.
  revert index output.
  induction pre as [| tweet pre IH]; intros index output; cbn [app forEach length].
  - cbn [bind]. now rewrite Nat.add_0_r.
  - destruct (forEach_callback callee tweet index output) as [output1 |]; cbn [bind];
      [| reflexivity].
    rewrite IH. now rewrite Nat.add_succ_r.
Qed.

Lemma join_blocks_cons (block : string) (blocks : list string) :
  join_blocks (block :: blocks) = block ++ join_blocks blocks.
Proof.
  reflexivity.
Qed.

(** [forEach] renders the tweets in the order of the array, numbering them
    from [index + 1]: when it returns, the output has grown by one block
    per tweet, the k-th block being what the callback makes of the k-th
    tweet with index [index + k], and starting with that number plus one. *)
Theorem forEach_renders_in_order
    (callee : string) (tweetsArray : list value) (index : nat)
    (output output' : string) :
  forEach callee tweetsArray index output = Normal output' ->
  exists blocks,
    length blocks = length tweetsArray
    /\ output' = output ++ join_blocks blocks
    /\ forall k tweet, nth_error tweetsArray k = Some tweet ->
         exists block,
           nth_error blocks k = Some block
           /\ forEach_callback callee tweet (index + k) "" = Normal block
           /\ prefix (string_of_nat (index + k + 1) ++ ". **Author:** @") block = true.
Proof.
  revert index output output'.
  induction tweetsArray as [| tweet rest IH]; intros index output output' H; cbn [forEach] in H.
  - apply Normal_inj in H. subst output'. exists []. repeat split.
    + cbn. now rewrite append_nil_r.
    + intros [| k] tweet Hk; discriminate Hk.
  - peel H.
    destruct (forEach_callback_block _ _ _ _ _ E) as (block & -> & Hprefix & Hany).
    destruct (IH _ _ _ H) as (blocks & Hlen & -> & Hblocks).
    exists (block :: blocks). split; [cbn; now rewrite Hlen |].
    split; [now rewrite join_blocks_cons, append_assoc |].
    intros [| k] tweet' Hk; cbn [nth_error] in *.
    + apply (f_equal (fun o => match o with Some t => t | None => tweet end)) in Hk.
      subst tweet'. exists block. rewrite Nat.add_0_r.
      split; [reflexivity |]. split; [apply (Hany callee "") | exact Hprefix].
    + destruct (Hblocks k tweet' Hk) as (b & Hb & Hcb & Hp).
      exists b. rewrite Nat.add_succ_r. now repeat split.
Qed.

Lemma forEach_renders_in_order_witness :
  exists blocks,
    length blocks = 2
    /\ sample_report
       = Paginated.header sample_args ++ join_blocks blocks ++ end_of_results_footer.
Proof.
  destruct (forEach_renders_in_order "tweetTextContent"
              [ sample_tweet "1866332309399781537" "Hello" "openai";
                sample_tweet "1866332309399781000" "World" "openai" ]
              0 (Paginated.header sample_args)
              (report_of (forEach "tweetTextContent"
                 [ sample_tweet "1866332309399781537" "Hello" "openai";
                   sample_tweet "1866332309399781000" "World" "openai" ]
                 0 (Paginated.header sample_args))))
    as (blocks & Hlen & Hout & _).
  - apply is_normal_report_of. vm_compute. reflexivity.
  - exists blocks. split; [exact Hlen |].
    rewrite <- append_assoc, <- Hout. vm_compute. reflexivity.
Defined.

(* ================================================================= *)
(** ** The text column *)






(* ================================================================= *)
(** ** A tweet that cannot be rendered *)

Lemma forEach_first_throw (callee : string) (pre post : list value) (tweet : value)
    (index : nat) (output output1 : string) (e : exn) :
  forEach callee pre index output = Normal output1 ->
  forEach_callback callee tweet (index + length pre) output1 = Throw e ->
  forEach callee (pre ++ tweet :: post) index output = Throw e.
Proof.
  intros Hpre Hcb. rewrite forEach_app, Hpre. cbn [bind forEach]. now rewrite Hcb.
Qed.

Lemma nonempty_app (pre post : list value) (tweet : value) :
  exists first rest, (pre ++ tweet :: post)%list = first :: rest.
Proof.
  destruct pre as [| first pre]; cbn; eauto.
Qed.

Lemma Paginated_run_forEach_throws (twitterApiKey : string)
    (axios_get : AxiosRequest -> completion AxiosResponse)
    (args : Paginated.Args) (response : AxiosResponse)
    (tweet : value) (rest : list value) (e : exn) :
  axios_get (Paginated.request twitterApiKey args) = Normal response ->
  OptGet (data response) "tweets" = JSArray (tweet :: rest) ->
  forEach "tweetTextContent" (tweet :: rest) 0 (Paginated.header args) = Throw e ->
  Paginated.run twitterApiKey axios_get args = Normal (unexpected_error (error_message e)).
Proof.
  intros Hget Htweets Hthrow.
  pose proof (forEach_throws _ _ _ _ e Hthrow) as Hna.
  unfold Paginated.run, Paginated.try_block. rewrite Hget. cbn [bind].
  destruct (bad_shape_array _ _ Htweets) as (fields & Hobj & Hok).
  rewrite Hok. cbn [bind]. rewrite Hobj in *. cbn [Get OptGet bind] in *.
  rewrite Htweets. unfold Paginated.format_output. rewrite Hthrow.
  cbn [bind try_catch]. unfold Paginated.catch_block. now rewrite Hna.
Qed.

Lemma Basic_run_forEach_throws (twitterApiKey : string)
    (axios_get : AxiosRequest -> completion AxiosResponse)
    (args : Basic.Args) (response : AxiosResponse)
    (tweet : value) (rest : list value) (e : exn) :
  axios_get (Basic.request twitterApiKey args) = Normal response ->
  OptGet (data response) "tweets" = JSArray (tweet :: rest) ->
  forEach ("(tweet.text || " ++ DQ ++ DQ ++ ")") (tweet :: rest) 0 (Basic.header args) = Throw e ->
  Basic.run twitterApiKey axios_get args = Normal (unexpected_error (error_message e)).
Proof.
  intros Hget Htweets Hthrow.
  pose proof (forEach_throws _ _ _ _ e Hthrow) as Hna.
  unfold Basic.run, Basic.try_block. rewrite Hget. cbn [bind].
  destruct (bad_shape_array _ _ Htweets) as (fields & Hobj & Hok).
  rewrite Hok. cbn [bind]. rewrite Hobj in *. cbn [Get OptGet bind] in *.
  rewrite Htweets. unfold Basic.format_output. rewrite Hthrow.
  cbn [bind try_catch]. unfold Basic.catch_block. now rewrite Hna.
Qed.

(** One [null] (or [undefined]) element in the [tweets] array costs the
    whole page: if the tweets before it render, both handlers return the
    unexpected-error line with the runtime's message about reading
    [author], and none of the blocks already rendered. *)
Theorem run_discards_page_with_null_tweet
    (twitterApiKey : string) (axios_get : AxiosRequest -> completion AxiosResponse)
    (response : AxiosResponse) (pre post : list value) (tweet : value) :
  OptGet (data response) "tweets" = JSArray (pre ++ tweet :: post) ->
  nullish tweet = true ->
  let line :=
    unexpected_error ("Cannot read properties of "
                      ++ match tweet with JSNull => "null" | _ => "undefined" end
                      ++ " (reading 'author')") in
  (forall args,
      axios_get (Paginated.request twitterApiKey args) = Normal response ->
      is_normal (forEach "tweetTextContent" pre 0 (Paginated.header args)) = true ->
      Paginated.run twitterApiKey axios_get args = Normal line)
  /\ (forall args,
      axios_get (Basic.request twitterApiKey args) = Normal response ->
      is_normal (forEach ("(tweet.text || " ++ DQ ++ DQ ++ ")") pre 0 (Basic.header args)) = true ->
      Basic.run twitterApiKey axios_get args = Normal line).
Proof.
  intros Htweets Hnull line.
  destruct (nonempty_app pre post tweet) as (first & rest & Hshape).
  rewrite Hshape in Htweets.
  split; intros args Hget Hpre.
  - destruct (forEach "tweetTextContent" pre 0 (Paginated.header args)) as [out |] eqn:E;
      [| discriminate Hpre].
    rewrite (Paginated_run_forEach_throws _ _ _ _ _ _ _ Hget Htweets
               (eq_trans (f_equal (fun l => forEach _ l 0 _) (eq_sym Hshape))
                         (forEach_first_throw _ _ _ _ _ _ _ _ E
                            (forEach_callback_nullish _ _ _ _ Hnull)))).
    reflexivity.
  - destruct (forEach ("(tweet.text || " ++ DQ ++ DQ ++ ")") pre 0 (Basic.header args)) as [out |] eqn:E;
      [| discriminate Hpre].
    rewrite (Basic_run_forEach_throws _ _ _ _ _ _ _ Hget Htweets
               (eq_trans (f_equal (fun l => forEach _ l 0 _) (eq_sym Hshape))
                         (forEach_first_throw _ _ _ _ _ _ _ _ E
                            (forEach_callback_nullish _ _ _ _ Hnull)))).
    reflexivity.
Qed.

Lemma run_discards_page_with_null_tweet_witness :
  Paginated.run "KEY"
    (answers (JSObject [("tweets", JSArray [sample_tweet "1" "Hello" "openai"; JSNull])]))
    sample_args
  = Normal "Error: An unexpected error occurred while searching tweets: Cannot read properties of null (reading 'author')".
Proof.
  destruct (run_discards_page_with_null_tweet "KEY"
              (answers (JSObject [("tweets", JSArray [sample_tweet "1" "Hello" "openai"; JSNull])]))
              (mkResponse 200
                 (JSObject [("tweets", JSArray [sample_tweet "1" "Hello" "openai"; JSNull])]))
              [sample_tweet "1" "Hello" "openai"] [] JSNull eq_refl eq_refl) as [H _].
  apply H; reflexivity.
Defined.

Lemma truncate_text_not_string (callee : string) (text : value) :
  ToBoolean text = true ->
  (forall s, text <> JSString s) ->
  truncate_text callee (or_else text (JSString ""))
  = Throw (TypeError (callee ++ ".substring is not a function")).
Proof.
  intros Ht Hs. rewrite (or_else_truthy _ _ Ht).
  destruct text; try reflexivity. now destruct (Hs s).
Qed.

(** A tweet whose [text] is truthy but not a string (a non-zero number,
    [true], an array, an object) has no [substring] to call: if the tweets
    before it render, both handlers return the unexpected-error line saying
    that [substring] is not a function, each naming its own expression. *)
Theorem run_discards_page_with_non_string_text
    (twitterApiKey : string) (axios_get : AxiosRequest -> completion AxiosResponse)
    (response : AxiosResponse) (pre post : list value) (fields : list (string * value)) :
  OptGet (data response) "tweets" = JSArray (pre ++ JSObject fields :: post) ->
  ToBoolean (lookup "text" fields) = true ->
  (forall s, lookup "text" fields <> JSString s) ->
  (forall args,
      axios_get (Paginated.request twitterApiKey args) = Normal response ->
      is_normal (forEach "tweetTextContent" pre 0 (Paginated.header args)) = true ->
      Paginated.run twitterApiKey axios_get args
      = Normal (unexpected_error "tweetTextContent.substring is not a function"))
  /\ (forall args,
      axios_get (Basic.request twitterApiKey args) = Normal response ->
      is_normal (forEach ("(tweet.text || " ++ DQ ++ DQ ++ ")") pre 0 (Basic.header args)) = true ->
      Basic.run twitterApiKey axios_get args
      = Normal (unexpected_error ("(tweet.text || " ++ DQ ++ DQ ++ ").substring is not a function"))).
Proof.
  intros Htweets Ht Hs.
  destruct (nonempty_app pre post (JSObject fields)) as (first & rest & Hshape).
  rewrite Hshape in Htweets.
  assert (Hcb : forall callee index output,
             forEach_callback callee (JSObject fields) index output
             = Throw (TypeError (callee ++ ".substring is not a function"))).
  { intros callee index output. unfold forEach_callback. cbn [Get bind].
    now rewrite (truncate_text_not_string _ _ Ht Hs). }
  split; intros args Hget Hpre.
  - destruct (forEach "tweetTextContent" pre 0 (Paginated.header args)) as [out |] eqn:E;
      [| discriminate Hpre].
    rewrite (Paginated_run_forEach_throws _ _ _ _ _ _ _ Hget Htweets
               (eq_trans (f_equal (fun l => forEach _ l 0 _) (eq_sym Hshape))
                         (forEach_first_throw _ _ _ _ _ _ _ _ E (Hcb _ _ _)))).
    reflexivity.
  - destruct (forEach ("(tweet.text || " ++ DQ ++ DQ ++ ")") pre 0 (Basic.header args)) as [out |] eqn:E;
      [| discriminate Hpre].
    rewrite (Basic_run_forEach_throws _ _ _ _ _ _ _ Hget Htweets
               (eq_trans (f_equal (fun l => forEach _ l 0 _) (eq_sym Hshape))
                         (forEach_first_throw _ _ _ _ _ _ _ _ E (Hcb _ _ _)))).
    reflexivity.
Qed.

Lemma run_discards_page_with_non_string_text_witness :
  Basic.run "KEY"
    (answers (JSObject [("tweets", JSArray [JSObject [("id", JSString "1"); ("text", JSNumber 42)]])]))
    (Basic.mkArgs "openserv.ai" Latest)
  = Normal ("Error: An unexpected error occurred while searching tweets: (tweet.text || "
            ++ DQ ++ DQ ++ ").substring is not a function").
Proof.
  destruct (run_discards_page_with_non_string_text "KEY"
              (answers (JSObject [("tweets", JSArray [JSObject [("id", JSString "1"); ("text", JSNumber 42)]])]))
              (mkResponse 200
                 (JSObject [("tweets", JSArray [JSObject [("id", JSString "1"); ("text", JSNumber 42)]])]))
              [] [] [("id", JSString "1"); ("text", JSNumber 42)] eq_refl eq_refl)
    as [_ H].
  - intros s. discriminate.
  - apply H; reflexivity.
Defined.

(* ================================================================= *)
(** ** Lengths *)

Lemma substring0_length_le (n : nat) (s : string) :
  String.length (substring0 n s) <= n.
Proof.
  unfold substring0. revert n.
  induction s as [|x s IH]; intros [|n]; simpl; try lia.
  specialize (IH n). lia.
Qed.

Lemma substring0_length_min (n : nat) (s : string) :
  String.length (substring0 n s) = Nat.min n (String.length s).
Proof.
  destruct (Nat.le_ge_cases (String.length s) n) as [H | H].
  - rewrite substring0_short by exact H. lia.
  - rewrite substring0_length by exact H. lia.
Qed.

Lemma truncation_notice_length : String.length truncation_notice = 49.
Proof.
  reflexivity.
Qed.

Lemma cap_plus_notice : 25000 + 49 = 25049.
Proof.
  apply Nat.eqb_eq. vm_compute. reflexivity.
Qed.

(** The report of a non-empty page is returned with at most 25,049
    characters by either handler: the 25,000 of the safeguard plus the 49
    of the truncation notice.  It is returned longer than 25,000 exactly
    when it was truncated, and then it has 25,049 characters and ends with
    the notice. *)
Theorem returned_report_at_most_25049
    (twitterApiKey : string) (axios_get : AxiosRequest -> completion AxiosResponse)
    (report : string) (r : completion string) :
  (exists args, Paginated_report twitterApiKey axios_get args report
                /\ r = Paginated.run twitterApiKey axios_get args)
  \/ (exists args, Basic_report twitterApiKey axios_get args report
                   /\ r = Basic.run twitterApiKey axios_get args) ->
  exists returned,
    r = Normal returned
    /\ String.length returned <= 25049
    /\ (25000 < String.length report ->
          String.length returned = 25049
          /\ ends_with (LF ++ "... [Total output truncated due to length limit]") returned = true)
    /\ (String.length report <= 25000 -> returned = report).
Proof.
  intros H.
  assert (Hr : r = Normal (cap_output report)).
  { destruct H as [(args & (response & tweet & rest & Hget & Htweets & Hfmt) & ->)
                  | (args & (response & tweet & rest & Hget & Htweets & Hfmt) & ->)].
    - exact (Paginated_run_report _ _ _ _ _ _ _ Hget Htweets Hfmt).
    - exact (Basic_run_report _ _ _ _ _ _ _ Hget Htweets Hfmt). }
  exists (cap_output report). split; [exact Hr |].
  destruct (Nat.le_gt_cases (String.length report) 25000) as [Hle | Hgt].
  - rewrite (cap_output_short _ Hle). rewrite <- cap_plus_notice. repeat split; lia.
  - rewrite (cap_output_long _ Hgt).
    assert (Hlen : String.length (substring0 25000 report ++ truncation_notice) = 25049).
    { rewrite length_append, truncation_notice_length, substring0_length by lia.
      apply cap_plus_notice. }
    rewrite Hlen. repeat split; try lia.
    apply ends_with_append.
Qed.

Lemma returned_report_at_most_25049_witness :
  exists returned,
    Paginated.run "KEY" (answers oversized_body) sample_args = Normal returned
    /\ String.length returned <= 25049.
Proof.
  destruct (returned_report_at_most_25049 "KEY" (answers oversized_body) oversized_report
              (Paginated.run "KEY" (answers oversized_body) sample_args))
    as (returned & Hr & Hlen & _).
  - left. exists sample_args. split; [| reflexivity].
    exists (mkResponse 200 oversized_body), oversized_tweet, [].
    split; [reflexivity | split; [reflexivity |]].
    apply is_normal_report_of. vm_compute. reflexivity.
  - exists returned. split; [exact Hr | exact Hlen].
Defined.

(** Whatever the [text] of a tweet is, the text the callback renders has at
    most 253 characters: 250 of the text and the three dots. *)
Theorem rendered_text_at_most_253 (callee : string) (text : value) (tweetText : string) :
  truncate_text callee (or_else text (JSString "")) = Normal tweetText ->
  String.length tweetText <= 253.
Proof.
  destruct (or_else text (JSString "")); intros H; try discriminate H.
  apply Normal_inj in H. subst tweetText. rewrite length_append.
  pose proof (substring0_length_le 250 s).
  destruct (250 <? String.length s)%nat; cbn [String.length]; lia.
Qed.

Lemma rendered_text_at_most_253_witness :
  String.length (substring0 250 (string_repeat "a" 300) ++ "...") <= 253.
Proof.
  apply (rendered_text_at_most_253 "tweetTextContent" (JSString (string_repeat "a" 300))).
  vm_compute. reflexivity.
Defined.

(** The header of a page names at most the first ten characters of the
    cursor: two non-empty cursors that agree on their first ten characters
    give the same header, and the header's length grows with the cursor
    only up to ten. *)
Theorem header_shows_ten_characters_of_cursor
    (query : string) (queryType : QueryType) (cursor cursor' : string) :
  cursor <> "" ->
  cursor' <> "" ->
  let header c := Paginated.header (Paginated.mkArgs query queryType (Some c)) in
  (substring0 10 cursor = substring0 10 cursor' -> header cursor = header cursor')
  /\ header cursor
     = "**Search Results for Query " ++ DQ ++ query ++ DQ ++ " (Type: "
       ++ QueryType_toString queryType ++ ") - Page corresponding to cursor "
       ++ DQ ++ substring0 10 cursor ++ "..." ++ DQ ++ ":**" ++ LF ++ LF
  /\ String.length (header cursor)
     = 80 + String.length query + String.length (QueryType_toString queryType)
       + Nat.min 10 (String.length cursor).
Proof.
  intros Hc Hc' header.
  assert (Hh : forall c, c <> "" ->
             header c
             = "**Search Results for Query " ++ DQ ++ query ++ DQ ++ " (Type: "
               ++ QueryType_toString queryType ++ ") - Page corresponding to cursor "
               ++ DQ ++ substring0 10 c ++ "..." ++ DQ ++ ":**" ++ LF ++ LF).
  { intros c Hne. unfold header, Paginated.header.
    cbn [Paginated.cursor truthy Paginated.query Paginated.queryType].
    now rewrite (ToBoolean_string _ Hne). }
  split; [| split].
  - intros E. rewrite (Hh _ Hc), (Hh _ Hc'), E. reflexivity.
  - apply Hh, Hc.
  - rewrite (Hh _ Hc). rewrite !length_append, substring0_length_min.
    cbn [String.length DQ LF]. lia.
Qed.

Lemma header_shows_ten_characters_of_cursor_witness :
  Paginated.header (Paginated.mkArgs "from:openai" Latest (Some "DAACCgACGdy7-first"))
  = Paginated.header (Paginated.mkArgs "from:openai" Latest (Some "DAACCgACGdy7-second")).
Proof.
  destruct (header_shows_ten_characters_of_cursor "from:openai" Latest
              "DAACCgACGdy7-first" "DAACCgACGdy7-second") as [H _];
    [discriminate | discriminate |].
  apply H. reflexivity.
Defined.

(** The length safeguard does not cover an empty page: the string either
    handler returns for it holds the whole query and is longer than the
    query, however long that is. *)
Theorem empty_page_longer_than_query
    (twitterApiKey : string) (axios_get : AxiosRequest -> completion AxiosResponse)
    (response : AxiosResponse) :
  OptGet (data response) "tweets" = JSArray [] ->
  (forall args next,
      axios_get (Paginated.request twitterApiKey args) = Normal response ->
      (ToBoolean (OptGet (data response) "has_next_page")
       && ToBoolean (OptGet (data response) "next_cursor") = true ->
       ToString (OptGet (data response) "next_cursor") = Normal next) ->
      exists returned,
        Paginated.run twitterApiKey axios_get args = Normal returned
        /\ contains (Paginated.query args) returned = true
        /\ String.length (Paginated.query args) + 70 <= String.length returned)
  /\ (forall args,
      axios_get (Basic.request twitterApiKey args) = Normal response ->
      exists returned,
        Basic.run twitterApiKey axios_get args = Normal returned
        /\ contains (Basic.query args) returned = true
        /\ String.length returned = String.length (Basic.query args) + 46).
Proof.
  intros Htweets. split.
  - intros args next Hget Hnext.
    rewrite (Paginated_run_empty _ _ _ _ Hget Htweets).
    rewrite (Paginated_empty_page_eq _ _ _ _ Hnext). cbn [try_catch].
    eexists. split; [reflexivity |]. split.
    + destruct (truthy (Paginated.cursor args)); unfold no_more_tweets, no_tweets_found;
        rewrite <- !append_assoc, !append_assoc;
        match goal with
        | |- contains ?q ((?a ++ DQ) ++ ?q ++ ?rest) = true => apply contains_append
        | |- contains ?q (?a ++ DQ ++ ?q ++ ?rest) = true =>
            rewrite <- (append_assoc a DQ); apply contains_append
        end.
    + rewrite length_append.
      assert (Hnote : 24 <= String.length
                (page_note (OptGet (data response) "has_next_page")
                           (OptGet (data response) "next_cursor") next)).
      { unfold page_note, more_results_note, end_of_results_note.
        destruct (_ && _); rewrite !length_append; cbn [String.length LF]; lia. }
      destruct (truthy (Paginated.cursor args)); unfold no_more_tweets, no_tweets_found;
        rewrite !length_append; cbn [String.length DQ]; lia.
  - intros args Hget. rewrite (Basic_run_empty _ _ _ _ Hget Htweets).
    eexists. split; [reflexivity |]. split.
    + rewrite <- (append_assoc _ DQ). apply contains_append.
    + rewrite !length_append. cbn [String.length DQ]. lia.
Qed.

Lemma empty_page_longer_than_query_witness :
  exists returned,
    Basic.run "KEY" (answers (empty_body false ""))
      (Basic.mkArgs (string_repeat "q" 25000) Latest) = Normal returned
    /\ String.length returned = String.length (string_repeat "q" 25000) + 46.
Proof.
  destruct (empty_page_longer_than_query "KEY" (answers (empty_body false ""))
              (mkResponse 200 (empty_body false "")) eq_refl) as [_ H].
  destruct (H (Basic.mkArgs (string_repeat "q" 25000) Latest) eq_refl)
    as (returned & Hr & _ & Hlen).
  exists returned. split; [exact Hr | exact Hlen].
Defined.

(* ================================================================= *)
(** ** The two handlers side by side *)

Lemma catch_blocks_agree (paginated : Paginated.Args) (basic : Basic.Args) (e : exn) :
  strict_eq_number (response_status e) 400 = false ->
  Paginated.catch_block paginated e = Basic.catch_block basic e.
Proof.
  intros H. unfold Paginated.catch_block, Basic.catch_block. now rewrite H.
Qed.

(** Outside of status 400 the two handlers answer a failure of [axios.get]
    with the same string, which depends on neither the query, the mode nor
    the cursor; and, given the same query, they answer a body without a
    [tweets] array in the same way (the query counts there because the
    shape check logs it as a format string). *)
Theorem handlers_agree_on_failures
    (twitterApiKey : string) (axios_get : AxiosRequest -> completion AxiosResponse)
    (paginated : Paginated.Args) (basic : Basic.Args) :
  (forall e,
      axios_get (Paginated.request twitterApiKey paginated) = Throw e ->
      axios_get (Basic.request twitterApiKey basic) = Throw e ->
      strict_eq_number (response_status e) 400 = false ->
      Paginated.run twitterApiKey axios_get paginated
      = Basic.run twitterApiKey axios_get basic)
  /\ (forall response,
      axios_get (Paginated.request twitterApiKey paginated) = Normal response ->
      axios_get (Basic.request twitterApiKey basic) = Normal response ->
      isArray (OptGet (data response) "tweets") = false ->
      Paginated.query paginated = Basic.query basic ->
      Paginated.run twitterApiKey axios_get paginated
      = Basic.run twitterApiKey axios_get basic).
Proof.
  split.
  - intros e Hp Hb H400.
    rewrite (Paginated_run_rejected _ _ _ _ Hp), (Basic_run_rejected _ _ _ _ Hb).
    now apply catch_blocks_agree.
  - intros response Hp Hb Hshape Hquery.
    destruct (shape_check_log (Basic.query basic) (data response)) as [[] | e] eqn:L.
    + destruct (ToString (errorMessage (data response))) as [m | e] eqn:E.
      * rewrite (Basic_run_bad_shape _ _ _ _ _ Hb Hshape L E).
        rewrite <- Hquery in L.
        exact (Paginated_run_bad_shape _ _ _ _ _ Hp Hshape L E).
      * unfold Paginated.run, Paginated.try_block, Basic.run, Basic.try_block.
        rewrite Hp, Hb. cbn [bind]. rewrite (bad_shape_not_array _ Hshape). cbn [bind].
        unfold shape_check_log in L. rewrite Hquery, L, E. cbn [bind try_catch].
        pose proof (ToString_throws _ e E) as Hna.
        unfold Paginated.catch_block, Basic.catch_block. now rewrite Hna.
    + rewrite (Basic_run_bad_shape_log _ _ _ _ _ Hb Hshape L).
      rewrite <- Hquery in L.
      rewrite (Paginated_run_bad_shape_log _ _ _ _ _ Hp Hshape L).
      pose proof (console_error_throws _ _ e L) as Hna.
      unfold Paginated.catch_block, Basic.catch_block. now rewrite Hna.
Qed.

Lemma handlers_agree_on_failures_witness :
  Paginated.run "KEY" (fails (http_failure 429 JSNull))
    (Paginated.mkArgs "from:openai" Top (Some "DAACCgACGdy"))
  = Basic.run "KEY" (fails (http_failure 429 JSNull)) (Basic.mkArgs "#opensource OR #AI" Latest)
  /\ Paginated.run "KEY" (answers shadowing_body) (Paginated.mkArgs "%s%d" Top (Some "DAACCgACGdy"))
     = Basic.run "KEY" (answers shadowing_body) (Basic.mkArgs "%s%d" Latest).
Proof.
  split.
  - destruct (handlers_agree_on_failures "KEY" (fails (http_failure 429 JSNull))
                (Paginated.mkArgs "from:openai" Top (Some "DAACCgACGdy"))
                (Basic.mkArgs "#opensource OR #AI" Latest)) as [H _].
    exact (H (http_failure 429 JSNull) eq_refl eq_refl eq_refl).
  - destruct (handlers_agree_on_failures "KEY" (answers shadowing_body)
                (Paginated.mkArgs "%s%d" Top (Some "DAACCgACGdy"))
                (Basic.mkArgs "%s%d" Latest)) as [_ H].
    exact (H (mkResponse 200 shadowing_body) eq_refl eq_refl eq_refl eq_refl).
Defined.

Lemma forEach_body (callee : string) (tweetsArray : list value) (index : nat)
    (output output' : string) :
  forEach callee tweetsArray index output = Normal output' ->
  exists body,
    output' = output ++ body
    /\ forall callee' output2,
         forEach callee' tweetsArray index output2 = Normal (output2 ++ body).
Proof.
  revert index output output'.
  induction tweetsArray as [| tweet rest IH]; intros index output output' H; cbn [forEach] in H.
  - apply Normal_inj in H. subst output'. exists "". split; [now rewrite append_nil_r |].
    intros callee' output2. cbn [forEach]. now rewrite append_nil_r.
  - peel H.
    destruct (forEach_callback_block _ _ _ _ _ E) as (block & -> & _ & Hany).
    destruct (IH _ _ _ H) as (body & -> & Hrest).
    exists (block ++ body). split; [now rewrite append_assoc |].
    intros callee' output2. cbn [forEach]. rewrite Hany. cbn [bind].
    rewrite Hrest. now rewrite append_assoc.
Qed.



(** The API key reaches the report through the network only: two runs with
    different keys whose calls have the same outcome complete alike. *)
Theorem report_independent_of_api_key
    (key key' : string) (axios_get axios_get' : AxiosRequest -> completion AxiosResponse) :
  (forall args,
      axios_get (Paginated.request key args) = axios_get' (Paginated.request key' args) ->
      Paginated.run key axios_get args = Paginated.run key' axios_get' args)
  /\ (forall args,
      axios_get (Basic.request key args) = axios_get' (Basic.request key' args) ->
      Basic.run key axios_get args = Basic.run key' axios_get' args).
Proof.
  split; intros args H.
  - unfold Paginated.run, Paginated.try_block. now rewrite H.
  - unfold Basic.run, Basic.try_block. now rewrite H.
Qed.

Lemma report_independent_of_api_key_witness :
  Paginated.run "KEY-1" (answers sample_body) sample_args
  = Paginated.run "KEY-2" (answers sample_body) sample_args.
Proof.
  destruct (report_independent_of_api_key "KEY-1" "KEY-2"
              (answers sample_body) (answers sample_body)) as [H _].
  exact (H sample_args eq_refl).
Defined.

(** The basic handler never shows the provider's cursor: two answers with
    the same tweets whose [has_next_page] and [next_cursor] are truthy
    together or not give the same result, whatever the cursors are. *)
Theorem Basic_report_ignores_cursor_value
    (twitterApiKey : string) (axios_get axios_get' : AxiosRequest -> completion AxiosResponse)
    (args : Basic.Args) (response response' : AxiosResponse) (tweetsArray : list value) :
  axios_get (Basic.request twitterApiKey args) = Normal response ->
  axios_get' (Basic.request twitterApiKey args) = Normal response' ->
  OptGet (data response) "tweets" = JSArray tweetsArray ->
  OptGet (data response') "tweets" = JSArray tweetsArray ->
  ToBoolean (OptGet (data response) "has_next_page")
  && ToBoolean (OptGet (data response) "next_cursor")
  = ToBoolean (OptGet (data response') "has_next_page")
    && ToBoolean (OptGet (data response') "next_cursor") ->
  Basic.run twitterApiKey axios_get args = Basic.run twitterApiKey axios_get' args.
Proof.
  intros Hget Hget' Htweets Htweets' Hb.
  unfold Basic.run, Basic.try_block. rewrite Hget, Hget'. cbn [bind].
  destruct (bad_shape_array _ _ Htweets) as (fields & Hobj & Hok).
  destruct (bad_shape_array _ _ Htweets') as (fields' & Hobj' & Hok').
  rewrite Hok, Hok'. cbn [bind]. rewrite Hobj, Hobj' in *. cbn [Get OptGet bind] in *.
  rewrite Htweets, Htweets'.
  destruct tweetsArray as [| tweet rest]; [reflexivity |].
  unfold Basic.format_output, Basic.add_pagination. cbn [Get bind].
  now rewrite Hb.
Qed.

Lemma Basic_report_ignores_cursor_value_witness :
  Basic.run "KEY" (answers continued_body) (Basic.mkArgs "openserv.ai" Latest)
  = Basic.run "KEY"
      (answers (JSObject [ ("tweets", JSArray [ sample_tweet "1866332309399781537" "Hello" "openai" ]);
                           ("has_next_page", JSNumber 1);
                           ("next_cursor", JSString "another-cursor") ]))
      (Basic.mkArgs "openserv.ai" Latest).
Proof.
  exact (Basic_report_ignores_cursor_value "KEY" _ _ _
           (mkResponse 200 continued_body)
           (mkResponse 200
              (JSObject [ ("tweets", JSArray [ sample_tweet "1866332309399781537" "Hello" "openai" ]);
                          ("has_next_page", JSNumber 1);
                          ("next_cursor", JSString "another-cursor") ]))
           [ sample_tweet "1866332309399781537" "Hello" "openai" ]
           eq_refl eq_refl eq_refl eq_refl eq_refl).
Defined.

(* ================================================================= *)
(** ** Telling a failure from a page *)

Lemma prefix_head (a : ascii) (p s : string) :
  prefix (String a p) s = true -> exists s', s = String a s'.
Proof.
  destruct s as [| b s']; cbn [prefix]; [discriminate |].
  destruct (ascii_dec a b) as [-> | _]; [eauto | discriminate].
Qed.

Lemma prefix_other_head (a b : ascii) (p q s : string) :
  a <> b -> prefix (String a p) s = true -> prefix (String b q) s = false.
Proof.
  intros Hab H. destruct (prefix_head _ _ _ H) as [s' ->]. cbn [prefix].
  destruct (ascii_dec b a) as [E | _]; [now destruct Hab | reflexivity].
Qed.

Lemma prefix_append_more (p a b : string) : prefix p ((p ++ a) ++ b) = true.
Proof.
  rewrite append_assoc. apply prefix_append.
Qed.

Lemma substring0_zero (s : string) : substring0 0 s = "".
Proof.
  now destruct s.
Qed.

Lemma substring0_of_prefix (k n : nat) (s t : string) :
  k <= n -> substring0 k (substring0 n s ++ t) = substring0 k s \/ String.length s < k.
Proof.
  revert k n.
  induction s as [| x s IH]; intros k n H.
  - destruct k as [| k]; [left; now rewrite !substring0_zero | right; cbn; lia].
  - destruct k as [| k]; [left; now rewrite !substring0_zero |].
    destruct n as [| n]; [lia |].
    unfold substring0 in *. cbn [substring append String.length].
    destruct (IH k n) as [E | E]; [lia | left; now rewrite E | right; lia].
Qed.

Lemma prefix_length (p s : string) : prefix p s = true -> String.length p <= String.length s.
Proof.
  revert s. induction p as [| a p IH]; intros [| b s]; cbn [prefix String.length];
    try lia; try discriminate.
  destruct (ascii_dec a b); [| discriminate].
  intros H. specialize (IH _ H). lia.
Qed.

Lemma cap_output_prefix (p s : string) :
  String.length p <= maxTotalOutputLength ->
  prefix p s = true -> prefix p (cap_output s) = true.
Proof.
  intros Hp H. unfold cap_output.
  destruct (maxTotalOutputLength <? String.length s)%nat; [| exact H].
  apply prefix_correct.
  destruct (substring0_of_prefix (String.length p) maxTotalOutputLength s truncation_notice Hp)
    as [E | E].
  - unfold substring0 in *. rewrite E. now apply prefix_correct.
  - apply prefix_length in H. lia.
Qed.

Lemma Paginated_header_prefix (args : Paginated.Args) :
  prefix "**Search Results for Query " (Paginated.header args) = true.
Proof.
  unfold Paginated.header. destruct (truthy (Paginated.cursor args)); reflexivity.
Qed.

Lemma prefix_append_l (p s t : string) : prefix p s = true -> prefix p (s ++ t) = true.
Proof.
  revert s. induction p as [| a p IH]; intros s H.
  - now destruct (s ++ t).
  - destruct s as [| b s]; cbn [prefix append] in *; [discriminate H |].
    destruct (ascii_dec a b); [now apply IH | discriminate H].
Qed.

(** Walk through the branches of a [catch] clause that returned. *)
Ltac returned_line H :=
  repeat match type of H with
         | (if ?c then _ else _) = Normal _ => destruct c
         | bind ?c _ = Normal _ => peel H
         | (let _ := _ in _) = Normal _ => cbv zeta in H
         end;
  apply Normal_inj in H; subst; reflexivity.

Lemma Paginated_catch_block_prefix (args : Paginated.Args) (e : exn) (out : string) :
  Paginated.catch_block args e = Normal out -> prefix "Error: " out = true.
Proof.
  unfold Paginated.catch_block. intros H. returned_line H.
Qed.

Lemma Basic_catch_block_prefix (args : Basic.Args) (e : exn) (out : string) :
  Basic.catch_block args e = Normal out -> prefix "Error: " out = true.
Proof.
  unfold Basic.catch_block. intros H. returned_line H.
Qed.

Lemma Paginated_run_page (twitterApiKey : string)
    (axios_get : AxiosRequest -> completion AxiosResponse)
    (args : Paginated.Args) (response : AxiosResponse) (tweetsArray : list value) :
  axios_get (Paginated.request twitterApiKey args) = Normal response ->
  OptGet (data response) "tweets" = JSArray tweetsArray ->
  Paginated.run twitterApiKey axios_get args
  = try_catch (Paginated_page args (data response) tweetsArray) (Paginated.catch_block args).
Proof.
  intros Hget Htweets. unfold Paginated.run, Paginated.try_block. rewrite Hget. cbn [bind].
  destruct (bad_shape_array _ _ Htweets) as (fields & Hobj & Hok).
  rewrite Hok. cbn [bind]. rewrite Hobj in *. cbn [Get OptGet bind] in *.
  rewrite Htweets. now destruct tweetsArray.
Qed.

Lemma Basic_run_page (twitterApiKey : string)
    (axios_get : AxiosRequest -> completion AxiosResponse)
    (args : Basic.Args) (response : AxiosResponse) (tweetsArray : list value) :
  axios_get (Basic.request twitterApiKey args) = Normal response ->
  OptGet (data response) "tweets" = JSArray tweetsArray ->
  Basic.run twitterApiKey axios_get args
  = try_catch (Basic_page args (data response) tweetsArray) (Basic.catch_block args).
Proof.
  intros Hget Htweets. unfold Basic.run, Basic.try_block. rewrite Hget. cbn [bind].
  destruct (bad_shape_array _ _ Htweets) as (fields & Hobj & Hok).
  rewrite Hok. cbn [bind]. rewrite Hobj in *. cbn [Get OptGet bind] in *.
  rewrite Htweets. now destruct tweetsArray.
Qed.

Lemma header_fits : String.length "**Search Results for Query " <= maxTotalOutputLength.
Proof.
  apply Nat.leb_le. vm_compute. reflexivity.
Qed.

Lemma Paginated_page_prefix (args : Paginated.Args) (responseData : value)
    (tweetsArray : list value) (out : string) :
  Paginated_page args responseData tweetsArray = Normal out ->
  prefix "No " out = true \/ prefix "**Search Results for Query " out = true.
Proof.
  unfold Paginated_page. destruct tweetsArray as [| tweet rest]; intros H.
  - left. unfold Paginated.empty_page in H.
    destruct (truthy (Paginated.cursor args)); returned_line H.
  - right. peel H. apply Normal_inj in H. subst out.
    apply cap_output_prefix; [apply header_fits |].
    unfold Paginated.format_output in E. peel E.
    destruct (forEach_body _ _ _ _ _ E0) as (body & -> & _).
    assert (Hp : prefix "**Search Results for Query " (Paginated.header args ++ body) = true)
      by apply prefix_append_l, Paginated_header_prefix.
    unfold Paginated.add_pagination in E.
    destruct (ToBoolean _ && ToBoolean _).
    + peel E. apply Normal_inj in E. subst a. now apply prefix_append_l.
    + apply Normal_inj in E. subst a. now apply prefix_append_l.
Qed.

Lemma Basic_page_prefix (args : Basic.Args) (responseData : value)
    (tweetsArray : list value) (out : string) :
  Basic_page args responseData tweetsArray = Normal out ->
  prefix "No " out = true \/ prefix "**Search Results for Query " out = true.
Proof.
  unfold Basic_page. destruct tweetsArray as [| tweet rest]; intros H.
  - left. apply Normal_inj in H. now subst out.
  - right. peel H. apply Normal_inj in H. subst out.
    apply cap_output_prefix; [apply header_fits |].
    unfold Basic.format_output in E. peel E.
    destruct (forEach_body _ _ _ _ _ E0) as (body & -> & _).
    assert (Hp : prefix "**Search Results for Query " (Basic.header args ++ body) = true)
      by (apply prefix_append_l; reflexivity).
    unfold Basic.add_pagination in E. peel E. peel E.
    destruct (ToBoolean _ && ToBoolean _); apply Normal_inj in E; subst a.
    + now apply prefix_append_l.
    + exact Hp.
Qed.

Lemma not_an_error_line (out : string) :
  prefix "No " out = true \/ prefix "**Search Results for Query " out = true ->
  prefix "Error: " out = false.
Proof.
  intros [H | H]; eapply prefix_other_head; try exact H; discriminate.
Qed.

Lemma shape_error_prefix (m : string) :
  prefix "Error: " ("Error: Failed to fetch tweets. API Response: " ++ m) = true.
Proof.
  reflexivity.
Qed.

Lemma Paginated_bad_shape_prefix (twitterApiKey : string)
    (axios_get : AxiosRequest -> completion AxiosResponse)
    (args : Paginated.Args) (response : AxiosResponse) (out : string) :
  axios_get (Paginated.request twitterApiKey args) = Normal response ->
  isArray (OptGet (data response) "tweets") = false ->
  Paginated.run twitterApiKey axios_get args = Normal out ->
  prefix "Error: " out = true.
Proof.
  intros Hget Hshape Hrun.
  unfold Paginated.run, Paginated.try_block in Hrun. rewrite Hget in Hrun.
  cbn [bind] in Hrun. rewrite (bad_shape_not_array _ Hshape) in Hrun.
  cbn [bind] in Hrun. cbv zeta in Hrun.
  destruct (console_error _ _) as [[] | e]; cbn [bind try_catch] in Hrun;
    [| now apply Paginated_catch_block_prefix in Hrun].
  destruct (ToString (errorMessage (data response))) as [m | e];
    cbn [bind try_catch] in Hrun.
  - apply Normal_inj in Hrun. subst out. apply shape_error_prefix.
  - now apply Paginated_catch_block_prefix in Hrun.
Qed.

Lemma Basic_bad_shape_prefix (twitterApiKey : string)
    (axios_get : AxiosRequest -> completion AxiosResponse)
    (args : Basic.Args) (response : AxiosResponse) (out : string) :
  axios_get (Basic.request twitterApiKey args) = Normal response ->
  isArray (OptGet (data response) "tweets") = false ->
  Basic.run twitterApiKey axios_get args = Normal out ->
  prefix "Error: " out = true.
Proof.
  intros Hget Hshape Hrun.
  unfold Basic.run, Basic.try_block in Hrun. rewrite Hget in Hrun.
  cbn [bind] in Hrun. rewrite (bad_shape_not_array _ Hshape) in Hrun.
  cbn [bind] in Hrun. cbv zeta in Hrun.
  destruct (console_error _ _) as [[] | e]; cbn [bind try_catch] in Hrun;
    [| now apply Basic_catch_block_prefix in Hrun].
  destruct (ToString (errorMessage (data response))) as [m | e];
    cbn [bind try_catch] in Hrun.
  - apply Normal_inj in Hrun. subst out. apply shape_error_prefix.
  - now apply Basic_catch_block_prefix in Hrun.
Qed.

(** A caller can tell a failure from a page by the first characters of the
    string the paginated [run] returns.  The string starts with
    ["Error: "], with ["No "] or with ["**Search Results for Query "]; and
    it does not start with ["Error: "] exactly when the provider answered
    with a [tweets] array and that page was rendered: every failure of the
    call, of the shape check or of the rendering starts with ["Error: "],
    and no rendered page does. *)
Theorem Paginated_failures_start_with_Error
    (twitterApiKey : string) (axios_get : AxiosRequest -> completion AxiosResponse)
    (args : Paginated.Args) (out : string) :
  Paginated.run twitterApiKey axios_get args = Normal out ->
  (prefix "Error: " out = true
   \/ prefix "No " out = true
   \/ prefix "**Search Results for Query " out = true)
  /\ (prefix "Error: " out = false
      <-> exists response tweetsArray,
            axios_get (Paginated.request twitterApiKey args) = Normal response
            /\ OptGet (data response) "tweets" = JSArray tweetsArray
            /\ Paginated_page args (data response) tweetsArray = Normal out).
Proof.
  intros Hrun.
  assert (Hcases :
    prefix "Error: " out = true
    \/ exists response tweetsArray,
         axios_get (Paginated.request twitterApiKey args) = Normal response
         /\ OptGet (data response) "tweets" = JSArray tweetsArray
         /\ Paginated_page args (data response) tweetsArray = Normal out).
  { destruct (axios_get (Paginated.request twitterApiKey args)) as [response | e] eqn:Hget.
    - destruct (OptGet (data response) "tweets") as [| | | | | tweetsArray |] eqn:Htweets;
        try (left;
             apply (Paginated_bad_shape_prefix _ _ _ _ _ Hget); [now rewrite Htweets | exact Hrun]).
      rewrite (Paginated_run_page _ _ _ _ _ Hget Htweets) in Hrun.
      destruct (Paginated_page args (data response) tweetsArray) as [page | e] eqn:Hpage;
        cbn [try_catch] in Hrun.
      + right. exists response, tweetsArray. now rewrite Hrun in Hpage.
      + left. now apply Paginated_catch_block_prefix in Hrun.
    - left. rewrite (Paginated_run_rejected _ _ _ _ Hget) in Hrun.
      now apply Paginated_catch_block_prefix in Hrun. }
  split.
  - destruct Hcases as [H | (response & tweetsArray & _ & _ & Hpage)]; [now left |].
    right. now apply Paginated_page_prefix in Hpage.
  - split.
    + intros Hne. destruct Hcases as [H | H]; [rewrite H in Hne; discriminate Hne | exact H].
    + intros (response & tweetsArray & _ & _ & Hpage).
      now apply not_an_error_line, (Paginated_page_prefix _ _ _ _ Hpage).
Qed.

Lemma Paginated_failures_start_with_Error_witness :
  prefix "Error: " sample_report = false.
Proof.
  apply (Paginated_failures_start_with_Error "KEY" (answers sample_body) sample_args).
  - vm_compute. reflexivity.
  - exists (mkResponse 200 sample_body). eexists.
    split; [reflexivity | split; [reflexivity | vm_compute; reflexivity]].
Defined.

(** The same for the basic handler of [src/index.ts]. *)
Theorem Basic_failures_start_with_Error
    (twitterApiKey : string) (axios_get : AxiosRequest -> completion AxiosResponse)
    (args : Basic.Args) (out : string) :
  Basic.run twitterApiKey axios_get args = Normal out ->
  (prefix "Error: " out = true
   \/ prefix "No " out = true
   \/ prefix "**Search Results for Query " out = true)
  /\ (prefix "Error: " out = false
      <-> exists response tweetsArray,
            axios_get (Basic.request twitterApiKey args) = Normal response
            /\ OptGet (data response) "tweets" = JSArray tweetsArray
            /\ Basic_page args (data response) tweetsArray = Normal out).
Proof.
  intros Hrun.
  assert (Hcases :
    prefix "Error: " out = true
    \/ exists response tweetsArray,
         axios_get (Basic.request twitterApiKey args) = Normal response
         /\ OptGet (data response) "tweets" = JSArray tweetsArray
         /\ Basic_page args (data response) tweetsArray = Normal out).
  { destruct (axios_get (Basic.request twitterApiKey args)) as [response | e] eqn:Hget.
    - destruct (OptGet (data response) "tweets") as [| | | | | tweetsArray |] eqn:Htweets;
        try (left;
             apply (Basic_bad_shape_prefix _ _ _ _ _ Hget); [now rewrite Htweets | exact Hrun]).
      rewrite (Basic_run_page _ _ _ _ _ Hget Htweets) in Hrun.
      destruct (Basic_page args (data response) tweetsArray) as [page | e] eqn:Hpage;
        cbn [try_catch] in Hrun.
      + right. exists response, tweetsArray. now rewrite Hrun in Hpage.
      + left. now apply Basic_catch_block_prefix in Hrun.
    - left. rewrite (Basic_run_rejected _ _ _ _ Hget) in Hrun.
      now apply Basic_catch_block_prefix in Hrun. }
  split.
  - destruct Hcases as [H | (response & tweetsArray & _ & _ & Hpage)]; [now left |].
    right. now apply Basic_page_prefix in Hpage.
  - split.
    + intros Hne. destruct Hcases as [H | H]; [rewrite H in Hne; discriminate Hne | exact H].
    + intros (response & tweetsArray & _ & _ & Hpage).
      now apply not_an_error_line, (Basic_page_prefix _ _ _ _ Hpage).
Qed.

Lemma Basic_failures_start_with_Error_witness :
  prefix "Error: " (no_tweets_found "openserv.ai") = false.
Proof.
  apply (Basic_failures_start_with_Error "KEY" (answers (empty_body false ""))
           (Basic.mkArgs "openserv.ai" Latest)).
  - reflexivity.
  - exists (mkResponse 200 (empty_body false "")), [].
    split; [reflexivity | split; reflexivity].
Defined.

(* ================================================================= *)
(** ** Tweets without fields *)

(** A tweet that is not [null] and has no field of its own (an empty
    object, a number, a string, a boolean, an array) is rendered, by either
    handler, as a block of fallbacks and of the word "undefined": author
    "Unknown User", empty text, counts 0, and "undefined" for the id, the
    creation time and the link. *)
Theorem tweet_without_fields_renders_undefined
    (callee : string) (tweet : value) (index : nat) (output : string) :
  nullish tweet = false ->
  fields_of tweet = [] ->
  forEach_callback callee tweet index output
  = Normal (output ++ tweet_block index "Unknown User" "undefined" ""
                        "undefined" "undefined" "0" "0" "0" "0").
Proof.
  intros Hn Hf. rewrite (forEach_callback_fields _ _ _ _ Hn), Hf.
  now apply forEach_callback_returns.
Qed.

Lemma tweet_without_fields_renders_undefined_witness :
  Paginated.run "KEY" (answers (page_of (JSNumber 7))) sample_args
  = Normal (Paginated.header sample_args
            ++ tweet_block 0 "Unknown User" "undefined" "" "undefined" "undefined"
                 "0" "0" "0" "0"
            ++ end_of_results_footer).
Proof.
  unfold Paginated.run, Paginated.try_block. cbn [answers bind data].
  change (bad_shape (page_of (JSNumber 7))) with (@Normal bool false). cbn [bind].
  change (Get (page_of (JSNumber 7)) "tweets") with (Normal (JSArray [JSNumber 7])).
  change (Get (page_of (JSNumber 7)) "has_next_page") with (Normal (JSBool false)).
  change (Get (page_of (JSNumber 7)) "next_cursor") with (Normal (JSString "")).
  cbn [bind]. unfold Paginated.format_output. cbn [forEach].
  rewrite (tweet_without_fields_renders_undefined "tweetTextContent" (JSNumber 7) 0
             (Paginated.header sample_args) eq_refl eq_refl).
  reflexivity.
Defined.

(* ================================================================= *)
(** ** Start-up and schema *)

(** The process goes on only with a non-empty API key, and every request
    either handler then builds carries that key in its [X-API-Key] header;
    with the variable unset or empty it exits with code 1. *)
Theorem startup_requires_api_key (TWITTER_API_IO_KEY : option string) :
  (validate_api_key TWITTER_API_IO_KEY = Exit 1
   <-> TWITTER_API_IO_KEY = None \/ TWITTER_API_IO_KEY = Some "")
  /\ (forall key,
        validate_api_key TWITTER_API_IO_KEY = Continue key ->
        TWITTER_API_IO_KEY = Some key
        /\ key <> ""
        /\ (forall args, headers (Paginated.request key args)
                         = [ ("X-API-Key", key); ("Accept", "application/json") ])
        /\ (forall args, headers (Basic.request key args)
                         = [ ("X-API-Key", key); ("Accept", "application/json") ])).
Proof.
  unfold validate_api_key, truthy.
  destruct TWITTER_API_IO_KEY as [key |]; cbn [ToBoolean].
  - destruct (String.eqb_spec key "") as [-> | Hne]; cbn [negb].
    + split; [split; auto | intros k H; discriminate H].
    + split.
      * split; [intros H; discriminate H | intros [H | H]; [discriminate H |]].
        apply (f_equal (fun o => match o with Some k => k | None => "" end)) in H.
        now destruct Hne.
      * intros k H.
        apply (f_equal (fun r => match r with Continue k => k | Exit _ => k end)) in H.
        subst k. repeat split; auto.
  - split; [split; auto | intros k H; discriminate H].
Qed.

Lemma startup_requires_api_key_witness :
  headers (Paginated.request "sk-live-1234" sample_args)
  = [ ("X-API-Key", "sk-live-1234"); ("Accept", "application/json") ].
Proof.
  destruct (startup_requires_api_key (Some "sk-live-1234")) as [_ H].
  destruct (H "sk-live-1234" eq_refl) as (_ & _ & Hheaders & _).
  apply Hheaders.
Defined.

(** A request object that gives a string [query] and neither [queryType]
    nor [cursor] passes the paginated schema as a first-page search in mode
    Latest: the call sends [queryType] "Latest" and an empty [cursor], and
    the report is headed "First Page". *)
Theorem schema_defaults_to_first_page_of_Latest
    (twitterApiKey : string) (fields : list (string * value)) (query : string) :
  lookup "query" fields = JSString query ->
  lookup "queryType" fields = JSUndefined ->
  lookup "cursor" fields = JSUndefined ->
  exists args,
    Paginated_schema (JSObject fields) = Some args
    /\ params (Paginated.request twitterApiKey args)
       = [ ("query", JSString query); ("queryType", JSString "Latest");
           ("cursor", JSString "") ]
    /\ Paginated.header args
       = "**Search Results for Query " ++ DQ ++ query ++ DQ
         ++ " (Type: Latest) - First Page:**" ++ LF ++ LF.
Proof.
  intros Hq Ht Hc. unfold Paginated_schema. rewrite Hq, Ht, Hc.
  cbn [Zod.string Zod.default Zod.optional].
  eexists. split; [reflexivity |]. split; reflexivity.
Qed.

Lemma schema_defaults_to_first_page_of_Latest_witness :
  exists args,
    Paginated_schema (JSObject [("query", JSString "#opensource OR #AI")]) = Some args
    /\ params (Paginated.request "KEY" args)
       = [ ("query", JSString "#opensource OR #AI"); ("queryType", JSString "Latest");
           ("cursor", JSString "") ].
Proof.
  destruct (schema_defaults_to_first_page_of_Latest "KEY"
              [("query", JSString "#opensource OR #AI")] "#opensource OR #AI"
              eq_refl eq_refl eq_refl) as (args & Hs & Hp & _).
  exists args. split; [exact Hs | exact Hp].
Defined.

Lemma lookup_other_key (k k' : string) (v : value) (fields : list (string * value)) :
  k <> k' -> lookup k ((k', v) :: fields) = lookup k fields.
Proof.
  intros H. cbn [lookup]. apply String.eqb_neq in H. now rewrite H.
Qed.

(** The basic schema drops a [cursor]: whatever value a request gives it,
    valid or not, the basic handler validates the request as if it were
    not there and sends no cursor.  And every request the paginated schema
    accepts is accepted by the basic schema, with the same query and
    mode. *)
Theorem Basic_schema_drops_cursor (input : value) :
  (forall fields cursor,
      Basic_schema (JSObject (("cursor", cursor) :: fields)) = Basic_schema (JSObject fields))
  /\ (forall args,
        Paginated_schema input = Some args ->
        Basic_schema input = Some (Basic.mkArgs (Paginated.query args) (Paginated.queryType args))).
Proof.
  split.
  - intros fields cursor. unfold Basic_schema.
    now rewrite !lookup_other_key by discriminate.
  - intros args. unfold Paginated_schema, Basic_schema.
    destruct input as [| | | | | |fields]; try discriminate.
    destruct (Zod.string (lookup "query" fields)) as [q |]; [| discriminate].
    destruct (Zod.default Zod.enum Latest (lookup "queryType" fields)) as [t |]; [| discriminate].
    destruct (Zod.optional Zod.string (lookup "cursor" fields)) as [c |]; [| discriminate].
    intros H. apply (f_equal (fun o => match o with Some a => a | None => args end)) in H.
    now subst args.
Qed.

Lemma Basic_schema_drops_cursor_witness :
  Basic_schema (JSObject [("query", JSString "from:openai"); ("cursor", JSString "DAACCgACGdy")])
  = Some (Basic.mkArgs "from:openai" Latest).
Proof.
  destruct (Basic_schema_drops_cursor
              (JSObject [("query", JSString "from:openai"); ("cursor", JSString "DAACCgACGdy")]))
    as [_ H].
  apply (H (Paginated.mkArgs "from:openai" Latest (Some "DAACCgACGdy"))). reflexivity.
Defined.

(* ================================================================= *)
(** ** The shape check and its log *)

Lemma format_without_percent (first : string) (args : list value) :
  contains "%" first = false -> format first args = Normal tt.
Proof.
  revert args. induction first as [| c tail IH]; intros args H; cbn [format].
  - reflexivity.
  - cbn [contains] in H. apply orb_false_iff in H as [Hhead Htail].
    destruct (Ascii.eqb_spec c "%") as [-> | _].
    + destruct tail; discriminate Hhead.
    + now apply IH.
Qed.

Lemma format_printable (first : string) (args : list value) :
  (forall arg, In arg args -> unprintable arg = false) ->
  format first args = Normal tt.
Proof.
  intros H. destruct (format first args) as [[] | e] eqn:E; [reflexivity |].
  destruct (format_throws_conversion _ _ _ E) as (arg & Hin & Harg).
  apply ToString_throws_iff in Harg as [_ Hu].
  rewrite (H _ Hin) in Hu. discriminate Hu.
Qed.

Lemma contains_char_append (c : ascii) (a b : string) :
  contains (String c "") (a ++ b) = contains (String c "") a || contains (String c "") b.
Proof.
  induction a as [| x a IH]; cbn [append].
  - destruct b; reflexivity.
  - cbn [contains]. rewrite IH, orb_assoc. f_equal.
    cbn [prefix]. destruct (ascii_dec c x); [| reflexivity].
    now destruct a, b.
Qed.

Lemma shape_check_log_returns (query : string) (responseData : value) (m : string) :
  ToString (errorMessage responseData) = Normal m ->
  contains "%" query = false \/ unprintable responseData = false ->
  shape_check_log query responseData = Normal tt.
Proof.
  intros Hm [Hq | Hd]; unfold shape_check_log, console_error.
  - apply format_without_percent.
    rewrite !contains_char_append, Hq. reflexivity.
  - apply format_printable. intros arg [<- | [<- | []]]; [| exact Hd].
    destruct (unprintable (errorMessage responseData)) eqn:Hu; [| reflexivity].
    assert (Ht : ToString (errorMessage responseData) = Throw cannot_convert)
      by now apply ToString_throws_iff.
    rewrite Ht in Hm. discriminate Hm.
Qed.

(** When the provider's answer has no [tweets] array and its message
    ([message] when truthy, else [msg] when truthy, else a generic phrase)
    converts to a string [m], both handlers return the line of the shape
    check with [m], for every query without a percent sign and for every
    body that converts to a primitive. *)
Theorem shape_check_reports_provider_message
    (twitterApiKey : string) (axios_get : AxiosRequest -> completion AxiosResponse)
    (response : AxiosResponse) (m : string) :
  isArray (OptGet (data response) "tweets") = false ->
  ToString (errorMessage (data response)) = Normal m ->
  (forall args,
      axios_get (Paginated.request twitterApiKey args) = Normal response ->
      contains "%" (Paginated.query args) = false \/ unprintable (data response) = false ->
      Paginated.run twitterApiKey axios_get args
      = Normal ("Error: Failed to fetch tweets. API Response: " ++ m))
  /\ (forall args,
      axios_get (Basic.request twitterApiKey args) = Normal response ->
      contains "%" (Basic.query args) = false \/ unprintable (data response) = false ->
      Basic.run twitterApiKey axios_get args
      = Normal ("Error: Failed to fetch tweets. API Response: " ++ m))
  /\ (ToBoolean (OptGet (data response) "message") = true ->
      errorMessage (data response) = OptGet (data response) "message")
  /\ (ToBoolean (OptGet (data response) "message") = false ->
      ToBoolean (OptGet (data response) "msg") = true ->
      errorMessage (data response) = OptGet (data response) "msg")
  /\ (ToBoolean (OptGet (data response) "message") = false ->
      ToBoolean (OptGet (data response) "msg") = false ->
      errorMessage (data response)
      = JSString "Unknown API error or invalid data structure (missing tweets array).").
Proof.
  intros Hshape Hm. split; [| split; [| split; [| split]]].
  - intros args Hget Hlog.
    exact (Paginated_run_bad_shape _ _ _ _ _ Hget Hshape
             (shape_check_log_returns _ _ _ Hm Hlog) Hm).
  - intros args Hget Hlog.
    exact (Basic_run_bad_shape _ _ _ _ _ Hget Hshape
             (shape_check_log_returns _ _ _ Hm Hlog) Hm).
  - intros Ht. unfold errorMessage.
    rewrite (or_else_truthy (or_else _ _)) by now rewrite or_else_truthy.
    now rewrite or_else_truthy.
  - intros Hf Ht. unfold errorMessage. rewrite (or_else_falsy _ _ Hf).
    now rewrite or_else_truthy.
  - intros Hf Hf'. unfold errorMessage.
    now rewrite (or_else_falsy _ _ Hf), (or_else_falsy _ _ Hf').
Qed.

Lemma shape_check_reports_provider_message_witness :
  Paginated.run "KEY" (answers rejected_body) sample_args
  = Normal "Error: Failed to fetch tweets. API Response: Invalid query syntax"
  /\ Basic.run "KEY" (answers JSNull) (Basic.mkArgs "100%s%d" Top)
     = Normal ("Error: Failed to fetch tweets. API Response: "
               ++ "Unknown API error or invalid data structure (missing tweets array).").
Proof.
  split.
  - destruct (shape_check_reports_provider_message "KEY" (answers rejected_body)
                (mkResponse 200 rejected_body) "Invalid query syntax" eq_refl eq_refl)
      as [H _].
    apply H; [reflexivity | left; reflexivity].
  - destruct (shape_check_reports_provider_message "KEY" (answers JSNull)
                (mkResponse 200 JSNull)
                "Unknown API error or invalid data structure (missing tweets array)."
                eq_refl eq_refl)
      as (_ & H & _).
    apply H; [reflexivity | right; reflexivity].
Defined.
